(** * Gas / temperature monitor (Task 4, [main.cpp]): model and properties

    The program is a single polling loop on an mbed board: it samples three
    analog inputs, evaluates two threshold alarms, prints a status line once
    a second, drives a buzzer and a LED, and serves a one-letter serial
    console.

    The embedding is shallow.  C [float] values are IEEE-754 binary32 numbers
    ([spec_float] with 24 bits of precision), [uint32_t] values are [Z] with
    the wrap-around written out, the mutable globals and the [static] locals
    of [checkSensors] live in a state record, and every access to the board
    (analog read, sleep, ticker, UART, PWM, LED) is logged as an event.
    What the board delivers (samples, ticks, received bytes) is an
    environment of oracles indexed by the number of accesses made so far. *)

From Stdlib Require Import ZArith List Bool String Ascii Lia QArith Qabs.
From Stdlib Require Import Floats.SpecFloat.
Import ListNotations.

Local Open Scope Z_scope.

(** ** Binary32 arithmetic *)

Definition float : Type := spec_float.

Module F32.

Definition prec : Z := 24.
Definition emax : Z := 128.

(** An integer constant such as [330.0f]. *)
Definition of_int (n : Z) : float := binary_normalize prec emax n 0 false.

Definition add : float -> float -> float := SFadd prec emax.
Definition mul : float -> float -> float := SFmul prec emax.
Definition div : float -> float -> float := SFdiv prec emax.

(** [gtb x y] is the C comparison [x > y]: false when either side is NaN. *)
Definition gtb (x y : float) : bool := SFltb y x.

(** The binary32 value nearest to the decimal [num / den]; both integers
    are small enough to be exact, so the division rounds once. *)
Definition decimal (num den : Z) : float := div (of_int num) (of_int den).

(** The rational a finite float stands for. *)
Definition toQ (x : float) : option Q :=
  match x with
  | S754_zero _ => Some (0 # 1)%Q
  | S754_finite s m e =>
      let v := match e with
               | Zneg p => (Zpos m # Pos.pow 2 p)%Q
               | _ => (Zpos m * 2 ^ e # 1)%Q
               end in
      Some (if s then Qopp v else v)
  | _ => None
  end.

Definition zero : float := Eval cbv in of_int 0.
Definition half : float := Eval cbv in decimal 5 10.
Definition five : float := Eval cbv in of_int 5.
Definition nine : float := Eval cbv in of_int 9.
Definition ten : float := Eval cbv in of_int 10.
Definition f24 : float := Eval cbv in of_int 24.
Definition f32 : float := Eval cbv in of_int 32.
Definition f330 : float := Eval cbv in of_int 330.

End F32.

(** ** The board: sensors, events and the environment *)

Inductive Sensor := gasSensor | lm35 | potentiometer.

(** What goes out on the UART: a literal string, or the result of a
    [sprintf] kept as its format and arguments. *)
Inductive Text :=
| Lit (s : string)
| Fmt (fmt : string) (args : list float).

Inductive Event :=
| EvAnalogRead (s : Sensor) (v : float)
| EvSleep (ms : Z)
| EvTicker (us : Z)
| EvUartPoll (c : option ascii)
| EvUartWrite (t : Text)
| EvBuzzerPeriod (ms : Z)
| EvBuzzerWrite (duty : float)
| EvLedWrite (b : bool).

(** What the outside world delivers: the [n]-th read of each analog input,
    the [n]-th value of the microsecond ticker, and what the [n]-th poll of
    the UART finds ([None]: nothing readable). *)
Record Env := mkEnv {
  analogIn : Sensor -> nat -> float;
  usTicker : nat -> Z;
  uartRx : nat -> option ascii
}.

(** ** Program state *)

(** The globals of lines 22-29. *)
Record Globals := mkGlobals {
  lm35Reading : float;
  lm35TempC : float;
  lm35TempF : float;
  potentiometerReading : float;
  potentiometerScaledToC : float;
  potentiometerScaledToF : float;
  gasDetected : bool;
  tempExceeded : bool
}.

(** The [static] locals of [checkSensors] (lines 85-87). *)
Record Statics := mkStatics {
  lastGasDetected : bool;
  lastTempExceeded : bool;
  lastPrintTime : Z
}.

(** The outputs of the board and how far each input has been consumed. *)
Record Board := mkBoard {
  buzzerPeriodMs : Z;
  buzzerDuty : float;
  led : bool;
  gasPos : nat;
  lm35Pos : nat;
  potPos : nat;
  tickerPos : nat;
  uartPos : nat
}.

Record State := mkState {
  globals : Globals;
  statics : Statics;
  board : Board
}.

Definition initialState : State :=
  {| globals := mkGlobals F32.zero F32.zero F32.zero F32.zero F32.zero F32.zero
                          false false;
     statics := mkStatics false false 0;
     board := mkBoard 0 F32.zero false 0 0 0 0 0 |}.

Definition set_lm35Reading v g :=
  mkGlobals v (lm35TempC g) (lm35TempF g) (potentiometerReading g)
            (potentiometerScaledToC g) (potentiometerScaledToF g)
            (gasDetected g) (tempExceeded g).
Definition set_lm35TempC v g :=
  mkGlobals (lm35Reading g) v (lm35TempF g) (potentiometerReading g)
            (potentiometerScaledToC g) (potentiometerScaledToF g)
            (gasDetected g) (tempExceeded g).
Definition set_lm35TempF v g :=
  mkGlobals (lm35Reading g) (lm35TempC g) v (potentiometerReading g)
            (potentiometerScaledToC g) (potentiometerScaledToF g)
            (gasDetected g) (tempExceeded g).
Definition set_potentiometerReading v g :=
  mkGlobals (lm35Reading g) (lm35TempC g) (lm35TempF g) v
            (potentiometerScaledToC g) (potentiometerScaledToF g)
            (gasDetected g) (tempExceeded g).
Definition set_potentiometerScaledToC v g :=
  mkGlobals (lm35Reading g) (lm35TempC g) (lm35TempF g) (potentiometerReading g)
            v (potentiometerScaledToF g)
            (gasDetected g) (tempExceeded g).
Definition set_potentiometerScaledToF v g :=
  mkGlobals (lm35Reading g) (lm35TempC g) (lm35TempF g) (potentiometerReading g)
            (potentiometerScaledToC g) v
            (gasDetected g) (tempExceeded g).
Definition set_gasDetected b g :=
  mkGlobals (lm35Reading g) (lm35TempC g) (lm35TempF g) (potentiometerReading g)
            (potentiometerScaledToC g) (potentiometerScaledToF g)
            b (tempExceeded g).
Definition set_tempExceeded b g :=
  mkGlobals (lm35Reading g) (lm35TempC g) (lm35TempF g) (potentiometerReading g)
            (potentiometerScaledToC g) (potentiometerScaledToF g)
            (gasDetected g) b.

Definition set_lastGasDetected b s :=
  mkStatics b (lastTempExceeded s) (lastPrintTime s).
Definition set_lastTempExceeded b s :=
  mkStatics (lastGasDetected s) b (lastPrintTime s).
Definition set_lastPrintTime t s :=
  mkStatics (lastGasDetected s) (lastTempExceeded s) t.

Definition set_buzzerPeriodMs p b :=
  mkBoard p (buzzerDuty b) (led b) (gasPos b) (lm35Pos b) (potPos b)
          (tickerPos b) (uartPos b).
Definition set_buzzerDuty d b :=
  mkBoard (buzzerPeriodMs b) d (led b) (gasPos b) (lm35Pos b) (potPos b)
          (tickerPos b) (uartPos b).
Definition set_led l b :=
  mkBoard (buzzerPeriodMs b) (buzzerDuty b) l (gasPos b) (lm35Pos b) (potPos b)
          (tickerPos b) (uartPos b).
Definition set_tickerPos n b :=
  mkBoard (buzzerPeriodMs b) (buzzerDuty b) (led b) (gasPos b) (lm35Pos b)
          (potPos b) n (uartPos b).
Definition set_uartPos n b :=
  mkBoard (buzzerPeriodMs b) (buzzerDuty b) (led b) (gasPos b) (lm35Pos b)
          (potPos b) (tickerPos b) n.

(** The read position of an analog input, and the board after one more read. *)
Definition sensorPos (s : Sensor) (b : Board) : nat :=
  match s with
  | gasSensor => gasPos b
  | lm35 => lm35Pos b
  | potentiometer => potPos b
  end.

Definition set_sensorPos (s : Sensor) (n : nat) (b : Board) : Board :=
  match s with
  | gasSensor =>
      mkBoard (buzzerPeriodMs b) (buzzerDuty b) (led b) n (lm35Pos b) (potPos b)
              (tickerPos b) (uartPos b)
  | lm35 =>
      mkBoard (buzzerPeriodMs b) (buzzerDuty b) (led b) (gasPos b) n (potPos b)
              (tickerPos b) (uartPos b)
  | potentiometer =>
      mkBoard (buzzerPeriodMs b) (buzzerDuty b) (led b) (gasPos b) (lm35Pos b) n
              (tickerPos b) (uartPos b)
  end.

(** ** A state-and-log monad *)

Definition M (A : Type) : Type := State -> A * State * list Event.

Definition ret {A} (a : A) : M A := fun st => (a, st, []).

Definition bind {A B} (m : M A) (k : A -> M B) : M B :=
  fun st =>
    let '(a, st1, ev1) := m st in
    let '(b, st2, ev2) := k a st1 in
    (b, st2, ev1 ++ ev2).

Declare Scope prog_scope.
Delimit Scope prog_scope with prog.
Notation "x <- m ;; k" := (bind m (fun x => k))
  (at level 61, m at next level, right associativity) : prog_scope.
Notation "m ;; k" := (bind m (fun _ => k))
  (at level 61, right associativity) : prog_scope.

Definition result {A} (r : A * State * list Event) : A := fst (fst r).
Definition final {A} (r : A * State * list Event) : State := snd (fst r).
Definition events {A} (r : A * State * list Event) : list Event := snd r.

Definition getG {A} (f : Globals -> A) : M A := fun st => (f (globals st), st, []).
Definition getS {A} (f : Statics -> A) : M A := fun st => (f (statics st), st, []).
Definition getB {A} (f : Board -> A) : M A := fun st => (f (board st), st, []).

Definition modG (f : Globals -> Globals) : M unit :=
  fun st => (tt, mkState (f (globals st)) (statics st) (board st), []).
Definition modS (f : Statics -> Statics) : M unit :=
  fun st => (tt, mkState (globals st) (f (statics st)) (board st), []).
Definition modB (f : Board -> Board) : M unit :=
  fun st => (tt, mkState (globals st) (statics st) (f (board st)), []).

Definition emit (e : Event) : M unit := fun st => (tt, st, [e]).

(** ** The program *)

Local Open Scope prog_scope.
Local Open Scope string_scope.

Definition crlf : string :=
  String (ascii_of_nat 13) (String (ascii_of_nat 10) EmptyString).

Definition NUL : ascii := ascii_of_nat 0.

(** [sprintf(str, fmt, ...)]: the formatted text, kept symbolic. *)
Definition sprintf (fmt : string) (args : list float) : Text := Fmt fmt args.

(** The fixed lines [checkSensors] prints. *)
Definition detectedLine : string := "Gas detected!" ++ crlf.
Definition noLongerDetectedLine : string := "Gas no longer detected." ++ crlf.
Definition exceedsLine : string := "ALERT: LM35 temperature exceeds 24°C!" ++ crlf.
Definition belowLine : string := "LM35 temperature below 24°C." ++ crlf.
Definition gasAlarmLine : string := "Gas Alarm" ++ crlf.
Definition temperatureAlarmLine : string := "Temperature Alarm" ++ crlf.

(** The case labels of the console's [switch] that start a streaming loop:
    ['a']/['A'] to ['f']/['F']. *)
Inductive Command := CmdA | CmdB | CmdC | CmdD | CmdE | CmdF.

(** The format string each streaming loop prints with. *)
Definition commandFormat (cmd : Command) : string :=
  match cmd with
  | CmdA => "Potentiometer reading: %.2f" ++ crlf
  | CmdB => "LM35 reading: %.2f" ++ crlf
  | CmdC => "LM35: %.2f °C" ++ crlf
  | CmdD => "LM35: %.2f °F" ++ crlf
  | CmdE => "LM35: %.2f °C, Potentiometer scaled to °C: %.2f" ++ crlf
  | CmdF => "LM35: %.2f °F, Potentiometer scaled to °F: %.2f" ++ crlf
  end.

Section Program.

Variable env : Env.

(** *** Board primitives *)

(** [sensor.read()]: one single-shot sample. *)
Definition analogRead (s : Sensor) : M float :=
  fun st =>
    let n := sensorPos s (board st) in
    let v := analogIn env s n in
    (v,
     mkState (globals st) (statics st) (set_sensorPos s (S n) (board st)),
     [EvAnalogRead s v]).

(** [ThisThread::sleep_for(ms)]. *)
Definition sleep_for (ms : Z) : M unit := emit (EvSleep ms).

(** [us_ticker_read()]: a [uint32_t] count of microseconds. *)
Definition us_ticker_read : M Z :=
  fun st =>
    let n := tickerPos (board st) in
    let us := usTicker env n mod 2 ^ 32 in
    (us,
     mkState (globals st) (statics st) (set_tickerPos (S n) (board st)),
     [EvTicker us]).

(** [buzzer.period_ms(p)] and [buzzer.write(d)]. *)
Definition buzzer_period_ms (p : Z) : M unit :=
  modB (set_buzzerPeriodMs p) ;; emit (EvBuzzerPeriod p).

Definition buzzer_write (d : float) : M unit :=
  modB (set_buzzerDuty d) ;; emit (EvBuzzerWrite d).

(** [led = b]. *)
Definition led_write (b : bool) : M unit :=
  modB (set_led b) ;; emit (EvLedWrite b).

(** *** Serial helpers (lines 56-81) *)

Definition pcSerialComStringWrite (str : Text) : M unit :=
  emit (EvUartWrite str).

(** [receivedChar] starts as NUL and is overwritten only when the UART is
    readable. *)
Definition pcSerialComCharRead : M ascii :=
  fun st =>
    let n := uartPos (board st) in
    let polled := uartRx env n in
    let receivedChar := match polled with
                        | Some c => c
                        | None => NUL
                        end in
    (receivedChar,
     mkState (globals st) (statics st) (set_uartPos (S n) (board st)),
     [EvUartPoll polled]).

Definition availableCommands : M unit :=
  pcSerialComStringWrite (Lit (crlf ++ "Press the following keys to continuously ")) ;;
  pcSerialComStringWrite (Lit ("print the readings until 'q' is pressed:" ++ crlf)) ;;
  pcSerialComStringWrite (Lit (" - 'a' the reading at the analog pin A0 (potentiometer)" ++ crlf)) ;;
  pcSerialComStringWrite (Lit (" - 'b' the reading at the analog pin A1 (LM35)" ++ crlf)) ;;
  pcSerialComStringWrite (Lit (" - 'c' the temperature in Celsius from LM35" ++ crlf)) ;;
  pcSerialComStringWrite (Lit (" - 'd' the temperature in Fahrenheit from LM35" ++ crlf)) ;;
  pcSerialComStringWrite (Lit (" - 'e' both LM35 in Celsius and potentiometer value in Celsius" ++ crlf)) ;;
  pcSerialComStringWrite (Lit (" - 'f' both LM35 in Fahrenheit and potentiometer value in Fahrenheit" ++ crlf)) ;;
  pcSerialComStringWrite (Lit (crlf ++ "WARNING: Press 'q' or 'Q' to stop." ++ crlf)).

(** *** Unit converters (lines 259-276) *)

Definition analogReadingScaledWithTheLM35Formula (analogReading : float) : float :=
  F32.mul analogReading F32.f330.

Definition celsiusToFahrenheit (tempInCelsiusDegrees : float) : float :=
  F32.add (F32.div (F32.mul tempInCelsiusDegrees F32.nine) F32.five) F32.f32.

Definition potentiometerScaledToCelsius (analogValue : float) : float :=
  F32.mul analogValue F32.f330.

Definition potentiometerScaledToFahrenheit (analogValue : float) : float :=
  F32.add
    (F32.div (F32.mul (potentiometerScaledToCelsius analogValue) F32.nine) F32.five)
    F32.f32.

(** *** The analog sampler (lines 248-256) *)

(** [for (int i = 0; i < n; ++i) { reading += sensor.read(); sleep_for(10ms); }] *)
Fixpoint sampleLoop (n : nat) (sensor : Sensor) (reading : float) : M float :=
  match n with
  | O => ret reading
  | S n' =>
      v <- analogRead sensor ;;
      sleep_for 10 ;;
      sampleLoop n' sensor (F32.add reading v)
  end.

Definition readStableAnalog (sensor : Sensor) : M float :=
  reading <- sampleLoop 10 sensor F32.zero ;;
  ret (F32.div reading F32.ten).

(** *** [checkSensors] (lines 84-151), block by block *)

(** Lines 91-95: read all sensors; the gas reading is a local. *)
Definition readAllSensors : M float :=
  gasReading <- readStableAnalog gasSensor ;;
  r <- readStableAnalog lm35 ;;
  modG (set_lm35Reading r) ;;
  r <- getG lm35Reading ;;
  modG (set_lm35TempC (analogReadingScaledWithTheLM35Formula r)) ;;
  c <- getG lm35TempC ;;
  modG (set_lm35TempF (celsiusToFahrenheit c)) ;;
  p <- readStableAnalog potentiometer ;;
  modG (set_potentiometerReading p) ;;
  ret gasReading.

(** Lines 98-110: check gas sensor. *)
Definition checkGas (gasReading : float) : M unit :=
  if F32.gtb gasReading F32.half then
    modG (set_gasDetected true) ;;
    last <- getS lastGasDetected ;;
    if negb last then
      pcSerialComStringWrite (Lit detectedLine) ;;
      modS (set_lastGasDetected true)
    else ret tt
  else
    modG (set_gasDetected false) ;;
    last <- getS lastGasDetected ;;
    if last then
      pcSerialComStringWrite (Lit noLongerDetectedLine) ;;
      modS (set_lastGasDetected false)
    else ret tt.

(** Lines 113-125: check temperature. *)
Definition checkTemperature : M unit :=
  c <- getG lm35TempC ;;
  if F32.gtb c F32.f24 then
    modG (set_tempExceeded true) ;;
    last <- getS lastTempExceeded ;;
    if negb last then
      pcSerialComStringWrite (Lit exceedsLine) ;;
      modS (set_lastTempExceeded true)
    else ret tt
  else
    modG (set_tempExceeded false) ;;
    last <- getS lastTempExceeded ;;
    if last then
      pcSerialComStringWrite (Lit belowLine) ;;
      modS (set_lastTempExceeded false)
    else ret tt.

Definition statusFormat : string :=
  "Gas: %.2f, LM35: %.2f C, Potentiometer: %.2f" ++ crlf.

(** Lines 128-134: print all sensor readings every second.  Both ticks are
    [uint32_t], so is their difference. *)
Definition printReadings (gasReading : float) : M unit :=
  us <- us_ticker_read ;;
  let currentTime := us / 1000 in
  lastPrint <- getS lastPrintTime ;;
  if (1000 <=? (currentTime - lastPrint) mod 2 ^ 32)%Z then
    c <- getG lm35TempC ;;
    p <- getG potentiometerReading ;;
    pcSerialComStringWrite (sprintf statusFormat [gasReading; c; p]) ;;
    modS (set_lastPrintTime currentTime)
  else ret tt.

(** Lines 137-150: control buzzer and LED, and print the alarm source. *)
Definition controlAlarm : M unit :=
  g <- getG gasDetected ;;
  t <- getG tempExceeded ;;
  if g || t then
    buzzer_write F32.half ;;
    l <- getB led ;;
    led_write (negb l) ;;
    (if g then pcSerialComStringWrite (Lit gasAlarmLine) else ret tt) ;;
    (if t then pcSerialComStringWrite (Lit temperatureAlarmLine) else ret tt)
  else
    buzzer_write F32.zero ;;
    led_write false.

Definition checkSensors : M unit :=
  gasReading <- readAllSensors ;;
  checkGas gasReading ;;
  checkTemperature ;;
  printReadings gasReading ;;
  controlAlarm.

(** *** [uartTask] (lines 154-245) *)

Definition isQuit (receivedChar : ascii) : bool :=
  (receivedChar =? "q")%char || (receivedChar =? "Q")%char.

(** One turn of each streaming loop, down to the poll that ends it; the
    value is the new [receivedChar]. *)

(** Lines 164-168. *)
Definition streamPotentiometer : M ascii :=
  v <- analogRead potentiometer ;;
  modG (set_potentiometerReading v) ;;
  p <- getG potentiometerReading ;;
  pcSerialComStringWrite (sprintf (commandFormat CmdA) [p]) ;;
  sleep_for 200 ;;
  pcSerialComCharRead.

(** Lines 175-179. *)
Definition streamLm35Reading : M ascii :=
  v <- analogRead lm35 ;;
  modG (set_lm35Reading v) ;;
  r <- getG lm35Reading ;;
  pcSerialComStringWrite (sprintf (commandFormat CmdB) [r]) ;;
  sleep_for 200 ;;
  pcSerialComCharRead.

(** Lines 186-191. *)
Definition streamCelsius : M ascii :=
  v <- analogRead lm35 ;;
  modG (set_lm35Reading v) ;;
  r <- getG lm35Reading ;;
  modG (set_lm35TempC (analogReadingScaledWithTheLM35Formula r)) ;;
  c <- getG lm35TempC ;;
  pcSerialComStringWrite (sprintf (commandFormat CmdC) [c]) ;;
  sleep_for 200 ;;
  pcSerialComCharRead.

(** Lines 198-204. *)
Definition streamFahrenheit : M ascii :=
  v <- analogRead lm35 ;;
  modG (set_lm35Reading v) ;;
  r <- getG lm35Reading ;;
  modG (set_lm35TempC (analogReadingScaledWithTheLM35Formula r)) ;;
  c <- getG lm35TempC ;;
  modG (set_lm35TempF (celsiusToFahrenheit c)) ;;
  f <- getG lm35TempF ;;
  pcSerialComStringWrite (sprintf (commandFormat CmdD) [f]) ;;
  sleep_for 200 ;;
  pcSerialComCharRead.

(** Lines 211-219. *)
Definition streamBothCelsius : M ascii :=
  v <- analogRead potentiometer ;;
  modG (set_potentiometerReading v) ;;
  p <- getG potentiometerReading ;;
  modG (set_potentiometerScaledToC (potentiometerScaledToCelsius p)) ;;
  w <- analogRead lm35 ;;
  modG (set_lm35Reading w) ;;
  r <- getG lm35Reading ;;
  modG (set_lm35TempC (analogReadingScaledWithTheLM35Formula r)) ;;
  c <- getG lm35TempC ;;
  pc <- getG potentiometerScaledToC ;;
  pcSerialComStringWrite (sprintf (commandFormat CmdE) [c; pc]) ;;
  sleep_for 200 ;;
  pcSerialComCharRead.

(** Lines 226-237. *)
Definition streamBothFahrenheit : M ascii :=
  v <- analogRead potentiometer ;;
  modG (set_potentiometerReading v) ;;
  p <- getG potentiometerReading ;;
  modG (set_potentiometerScaledToF (potentiometerScaledToFahrenheit p)) ;;
  w <- analogRead lm35 ;;
  modG (set_lm35Reading w) ;;
  r <- getG lm35Reading ;;
  modG (set_lm35TempC (analogReadingScaledWithTheLM35Formula r)) ;;
  c <- getG lm35TempC ;;
  modG (set_lm35TempF (celsiusToFahrenheit c)) ;;
  f <- getG lm35TempF ;;
  pf <- getG potentiometerScaledToF ;;
  pcSerialComStringWrite (sprintf (commandFormat CmdF) [f; pf]) ;;
  sleep_for 200 ;;
  pcSerialComCharRead.

(** [while (!(receivedChar == 'q' || receivedChar == 'Q')) { body }], where
    the body ends by assigning [receivedChar].  The loop runs for as long
    as the operator does not quit, so the model takes fuel: one unit per
    test of the condition, [None] when it runs out. *)
Fixpoint whileNotQuit (fuel : nat) (body : M ascii) (receivedChar : ascii)
         (st : State) : option (State * list Event) :=
  match fuel with
  | O => None
  | S fuel' =>
      if isQuit receivedChar then Some (st, [])
      else
        let '(c, st1, ev1) := body st in
        match whileNotQuit fuel' body c st1 with
        | Some (st2, ev2) => Some (st2, (ev1 ++ ev2)%list)
        | None => None
        end
  end.

(** The [switch] of lines 160-243: which streaming loop a byte selects;
    [None] is the [default] case. *)
Definition commandOf (receivedChar : ascii) : option Command :=
  if ((receivedChar =? "a") || (receivedChar =? "A"))%char then Some CmdA
  else if ((receivedChar =? "b") || (receivedChar =? "B"))%char then Some CmdB
  else if ((receivedChar =? "c") || (receivedChar =? "C"))%char then Some CmdC
  else if ((receivedChar =? "d") || (receivedChar =? "D"))%char then Some CmdD
  else if ((receivedChar =? "e") || (receivedChar =? "E"))%char then Some CmdE
  else if ((receivedChar =? "f") || (receivedChar =? "F"))%char then Some CmdF
  else None.

(** The loop body under each case label. *)
Definition streamBody (cmd : Command) : M ascii :=
  match cmd with
  | CmdA => streamPotentiometer
  | CmdB => streamLm35Reading
  | CmdC => streamCelsius
  | CmdD => streamFahrenheit
  | CmdE => streamBothCelsius
  | CmdF => streamBothFahrenheit
  end.

Definition uartTask (fuel : nat) (st : State) : option (State * list Event) :=
  let '(receivedChar, st1, ev1) := pcSerialComCharRead st in
  if negb (receivedChar =? NUL)%char then
    match commandOf receivedChar with
    | Some cmd =>
        match whileNotQuit fuel (streamBody cmd) receivedChar st1 with
        | Some (st2, ev2) => Some (st2, (ev1 ++ ev2)%list)
        | None => None
        end
    | None => Some (st1, ev1)
    end
  else Some (st1, ev1).

(** *** [main] (lines 43-53) *)

(** Lines 44-47, before the loop. *)
Definition mainSetup : M unit :=
  buzzer_period_ms 2 ;;
  buzzer_write F32.zero ;;
  availableCommands.

(** Lines 49-51: one turn of [while (true)]. *)
Definition mainIteration (fuel : nat) (st : State) : option (State * list Event) :=
  let '(_, st1, ev1) := checkSensors st in
  match uartTask fuel st1 with
  | Some (st2, ev2) =>
      let '(_, st3, ev3) := sleep_for 200 st2 in
      Some (st3, (ev1 ++ ev2 ++ ev3)%list)
  | None => None
  end.

(** The first [n] turns of the loop. *)
Fixpoint mainLoop (n fuel : nat) (st : State) : option (State * list Event) :=
  match n with
  | O => Some (st, [])
  | S n' =>
      match mainIteration fuel st with
      | Some (st1, ev1) =>
          match mainLoop n' fuel st1 with
          | Some (st2, ev2) => Some (st2, (ev1 ++ ev2)%list)
          | None => None
          end
      | None => None
      end
  end.

(** [main], cut after [n] turns of its loop. *)
Definition main (n fuel : nat) : option (State * list Event) :=
  let '(_, st0, ev0) := mainSetup initialState in
  match mainLoop n fuel st0 with
  | Some (st1, ev1) => Some (st1, (ev0 ++ ev1)%list)
  | None => None
  end.

End Program.

(** ** Reading a log *)

Definition isWriteOf (t : Text) (e : Event) : bool :=
  match e, t with
  | EvUartWrite (Lit s), Lit s' => String.eqb s s'
  | _, _ => false
  end.

(** How many times the literal line [s] was written. *)
Definition countLit (s : string) (evs : list Event) : nat :=
  List.length (filter (isWriteOf (Lit s)) evs).

(** How many lines with format [fmt] were written. *)
Definition countFmt (fmt : string) (evs : list Event) : nat :=
  List.length
    (filter (fun e => match e with
                      | EvUartWrite (Fmt f _) => String.eqb f fmt
                      | _ => false
                      end) evs).

(** A log in which every UART write is a line of format [f]. *)
Definition writesOnly (f : string) (evs : list Event) : bool :=
  forallb (fun e => match e with
                    | EvUartWrite (Fmt f' _) => String.eqb f' f
                    | EvUartWrite (Lit _) => false
                    | _ => true
                    end) evs.

Definition countWrites (evs : list Event) : nat :=
  List.length (filter (fun e => match e with
                                | EvUartWrite _ => true
                                | _ => false
                                end) evs).

(** The samples of [s] in a log, in order. *)
Definition samplesOf (s : Sensor) (evs : list Event) : list float :=
  flat_map (fun e => match e, s with
                     | EvAnalogRead gasSensor v, gasSensor
                     | EvAnalogRead lm35 v, lm35
                     | EvAnalogRead potentiometer v, potentiometer => [v]
                     | _, _ => []
                     end) evs.

(** The float mean as [readStableAnalog] computes it: accumulate from 0,
    left to right, then divide by 10. *)
Definition average10 (l : list float) : float :=
  F32.div (fold_left F32.add l F32.zero) F32.ten.

(** The [n] samples the environment holds for [s] from position [pos] on. *)
Definition window (env : Env) (s : Sensor) (pos n : nat) : list float :=
  map (analogIn env s) (seq pos n).

(** ** Summaries of the runs, used to state the properties *)

(** The log of [n] sample-and-sleep turns over the samples [l]. *)
Definition samplingLog (s : Sensor) (l : list float) : list Event :=
  flat_map (fun v => [EvAnalogRead s v; EvSleep 10]) l.

(** The transition line, if any, for an alarm that is now [now] and was
    [last] at the previous evaluation. *)
Definition edgeLog (onLine offLine : string) (now last : bool) : list Event :=
  if now then (if last then [] else [EvUartWrite (Lit onLine)])
  else (if last then [EvUartWrite (Lit offLine)] else []).

(** The ticker read of the reporter, and the status line when it is due. *)
Definition reportLog (us : Z) (due : bool) (gas tempC pot : float) : list Event :=
  EvTicker us ::
  (if due then [EvUartWrite (Fmt statusFormat [gas; tempC; pot])] else []).

(** What the actuator step writes for the two alarm flags. *)
Definition alarmLog (gas temp ledBefore : bool) : list Event :=
  if gas || temp then
    ([EvBuzzerWrite F32.half; EvLedWrite (negb ledBefore)]
       ++ (if gas then [EvUartWrite (Lit gasAlarmLine)] else [])
       ++ (if temp then [EvUartWrite (Lit temperatureAlarmLine)] else []))%list
  else [EvBuzzerWrite F32.zero; EvLedWrite false].

(** What one run of [checkSensors] from [st] in [env] computes, piece by
    piece; [checkSensors_run] below proves the program returns exactly
    [afterCheck] and logs exactly the four phases in this order. *)
Section Summary.

Variable env : Env.
Variable st : State.

Definition gasWindow : list float := window env gasSensor (gasPos (board st)) 10.
Definition lm35Window : list float := window env lm35 (lm35Pos (board st)) 10.
Definition potWindow : list float := window env potentiometer (potPos (board st)) 10.

Definition sampledGas : float := average10 gasWindow.
Definition sampledLm35 : float := average10 lm35Window.
Definition sampledPot : float := average10 potWindow.
Definition sampledTempC : float := analogReadingScaledWithTheLM35Formula sampledLm35.

Definition gasNow : bool := F32.gtb sampledGas F32.half.
Definition tempNow : bool := F32.gtb sampledTempC F32.f24.

Definition tickUs : Z := usTicker env (tickerPos (board st)) mod 2 ^ 32.
Definition tickMs : Z := tickUs / 1000.
Definition reportDue : bool :=
  (1000 <=? (tickMs - lastPrintTime (statics st)) mod 2 ^ 32)%Z.

Definition samplingPhase : list Event :=
  (samplingLog gasSensor gasWindow ++ samplingLog lm35 lm35Window
     ++ samplingLog potentiometer potWindow)%list.

Definition evaluationPhase : list Event :=
  (edgeLog detectedLine noLongerDetectedLine gasNow (lastGasDetected (statics st))
     ++ edgeLog exceedsLine belowLine tempNow (lastTempExceeded (statics st)))%list.

Definition reportPhase : list Event :=
  reportLog tickUs reportDue sampledGas sampledTempC sampledPot.

Definition actuationPhase : list Event :=
  alarmLog gasNow tempNow (led (board st)).

Definition afterCheck : State :=
  {| globals :=
       mkGlobals sampledLm35 sampledTempC (celsiusToFahrenheit sampledTempC)
                 sampledPot
                 (potentiometerScaledToC (globals st))
                 (potentiometerScaledToF (globals st))
                 gasNow tempNow;
     statics :=
       mkStatics gasNow tempNow
                 (if reportDue then tickMs else lastPrintTime (statics st));
     board :=
       mkBoard (buzzerPeriodMs (board st))
               (if gasNow || tempNow then F32.half else F32.zero)
               (if gasNow || tempNow then negb (led (board st)) else false)
               (gasPos (board st) + 10) (lm35Pos (board st) + 10)
               (potPos (board st) + 10)
               (S (tickerPos (board st))) (uartPos (board st)) |}.

End Summary.

(** The alarm flags, and the edge memory [checkSensors] keeps of them. *)
Definition alarmState (st : State) : bool * bool :=
  (gasDetected (globals st), tempExceeded (globals st)).

Definition edgeMemory (st : State) : bool * bool :=
  (lastGasDetected (statics st), lastTempExceeded (statics st)).

(** The byte [pcSerialComCharRead] returns for what a poll finds. *)
Definition charOf (polled : option ascii) : ascii :=
  match polled with
  | Some c => c
  | None => NUL
  end.

(** The byte the [n]-th poll returns. *)
Definition charAt (env : Env) (n : nat) : ascii := charOf (uartRx env n).

(** The analog reads of one turn of a streaming loop. *)
Definition streamReads (env : Env) (cmd : Command) (st : State) : list Event :=
  let v := analogIn env potentiometer (potPos (board st)) in
  let w := analogIn env lm35 (lm35Pos (board st)) in
  match cmd with
  | CmdA => [EvAnalogRead potentiometer v]
  | CmdB | CmdC | CmdD => [EvAnalogRead lm35 w]
  | CmdE | CmdF => [EvAnalogRead potentiometer v; EvAnalogRead lm35 w]
  end.

(** The values one turn of a streaming loop prints. *)
Definition streamArgs (env : Env) (cmd : Command) (st : State) : list float :=
  let v := analogIn env potentiometer (potPos (board st)) in
  let w := analogIn env lm35 (lm35Pos (board st)) in
  match cmd with
  | CmdA => [v]
  | CmdB => [w]
  | CmdC => [analogReadingScaledWithTheLM35Formula w]
  | CmdD => [celsiusToFahrenheit (analogReadingScaledWithTheLM35Formula w)]
  | CmdE => [analogReadingScaledWithTheLM35Formula w; potentiometerScaledToCelsius v]
  | CmdF => [celsiusToFahrenheit (analogReadingScaledWithTheLM35Formula w);
             potentiometerScaledToFahrenheit v]
  end.

(** An operation that leaves both alarm flags as it found them. *)
Definition keepsAlarmState {A : Type} (m : M A) : Prop :=
  forall st : State, alarmState (final (m st)) = alarmState st.

(** The events each phase of [checkSensors] may log. *)
Definition isSamplingEvent (e : Event) : bool :=
  match e with
  | EvAnalogRead _ _ => true
  | EvSleep ms => (ms =? 10)%Z
  | _ => false
  end.

Definition isEvaluationEvent (e : Event) : bool :=
  isWriteOf (Lit detectedLine) e || isWriteOf (Lit noLongerDetectedLine) e
  || isWriteOf (Lit exceedsLine) e || isWriteOf (Lit belowLine) e.

Definition isActuationEvent (e : Event) : bool :=
  match e with
  | EvBuzzerWrite _ | EvLedWrite _ => true
  | _ => isWriteOf (Lit gasAlarmLine) e || isWriteOf (Lit temperatureAlarmLine) e
  end.

(** ** Concrete environments used to exercise the theorems *)

(** Every input constant: the same sample on every analog read, the ticker
    stuck at 0, nothing on the UART. *)
Definition quietEnv (v : float) : Env :=
  mkEnv (fun _ _ => v) (fun _ => 0) (fun _ => None).

(** The canned readings 0.1, 0.2, ..., 1.0 on every analog input. *)
Definition rampEnv : Env :=
  mkEnv (fun _ n => F32.decimal (Z.of_nat (S n)) 10) (fun _ => 0) (fun _ => None).

(** The gas input delivers ten reads each of 0.3, 0.6, 0.6 and 0.4; the
    other inputs, the ticker and the UART are those of [base]. *)
Definition gasBurstEnv (base : Env) : Env :=
  mkEnv (fun s n =>
           match s with
           | gasSensor =>
               if (n <? 10)%nat then F32.decimal 3 10
               else if (n <? 20)%nat then F32.decimal 6 10
               else if (n <? 30)%nat then F32.decimal 6 10
               else F32.decimal 4 10
           | _ => analogIn base s n
           end)
        (usTicker base) (uartRx base).

(** The successive polls of the UART find what [polls] lists, then nothing;
    every analog read is [v]. *)
Definition typedEnv (v : float) (polls : list (option ascii)) : Env :=
  mkEnv (fun _ _ => v) (fun _ => 0) (fun n => nth n polls None).

(** The bytes ['a'], nothing, ['b'], ['q'] on four successive polls, each
    analog input stuck at 0.75. *)
Definition sessionEnv : Env :=
  typedEnv (F32.decimal 3 4) [Some "a"%char; None; Some "b"%char; Some "q"%char].

(** A raw LM35 sample whose mean over ten reads scales to exactly 24.0. *)
Definition boundarySample : float := S754_finite false 9761289 (-27).

(** The operator types ['a'] then ['q']; every analog read is 0.75. *)
Definition aThenQEnv : Env :=
  typedEnv (F32.decimal 3 4) [Some "a"%char; Some "q"%char].

(** The ticker reads 0, 400, 900 and 1050 ms on four successive reads; every
    analog read is [v]. *)
Definition fourTicksEnv (v : float) : Env :=
  mkEnv (fun _ _ => v)
        (fun n => nth n [0; 400000; 900000; 1050000] 0)
        (fun _ => None).

(** The gas readings of the scenario, ten raw reads per evaluation. *)
Definition gasScenario : list float :=
  (repeat (F32.decimal 3 10) 10 ++ repeat (F32.decimal 6 10) 10
     ++ repeat (F32.decimal 6 10) 10 ++ repeat (F32.decimal 4 10) 10)%list.

(** ** Further vocabulary for logs and states *)

(** The events a console session may log: reads of the two inputs it
    streams, its 200 ms sleep, polls and formatted lines. *)
Definition isConsoleEvent (e : Event) : bool :=
  match e with
  | EvAnalogRead potentiometer _ | EvAnalogRead lm35 _ => true
  | EvSleep ms => (ms =? 200)%Z
  | EvUartPoll _ => true
  | EvUartWrite (Fmt _ _) => true
  | _ => false
  end.

(** The time a log spends asleep, in milliseconds. *)
Definition sleepTotal (evs : list Event) : Z :=
  fold_right (fun e acc => match e with
                           | EvSleep ms => ms + acc
                           | _ => acc
                           end) 0 evs.

(** The case labels of each streaming loop. *)
Definition lowerOf (cmd : Command) : ascii :=
  match cmd with
  | CmdA => "a" | CmdB => "b" | CmdC => "c"
  | CmdD => "d" | CmdE => "e" | CmdF => "f"
  end%char.

Definition upperOf (cmd : Command) : ascii :=
  match cmd with
  | CmdA => "A" | CmdB => "B" | CmdC => "C"
  | CmdD => "D" | CmdE => "E" | CmdF => "F"
  end%char.

(** The loops that derive a Celsius temperature from the LM35 sample. *)
Definition derivesCelsius (cmd : Command) : bool :=
  match cmd with
  | CmdA | CmdB => false
  | _ => true
  end.

(** The loops that sample the LM35 input. *)
Definition readsLm35 (cmd : Command) : bool :=
  match cmd with
  | CmdA => false
  | _ => true
  end.

(** The six literal lines [checkSensors] can print. *)
Definition isAlarmLine (s : string) : bool :=
  String.eqb s detectedLine || String.eqb s noLongerDetectedLine
  || String.eqb s exceedsLine || String.eqb s belowLine
  || String.eqb s gasAlarmLine || String.eqb s temperatureAlarmLine.

(** A log whose literal lines are all among those six. *)
Definition onlyAlarmLits (evs : list Event) : bool :=
  forallb (fun e => match e with
                    | EvUartWrite (Lit s) => isAlarmLine s
                    | _ => true
                    end) evs.

(** The literal lines of a log, in order. *)
Definition litsOf (evs : list Event) : list string :=
  flat_map (fun e => match e with
                     | EvUartWrite (Lit s) => [s]
                     | _ => []
                     end) evs.

(** The nine lines of the help banner. *)
Definition bannerLines : list string :=
  litsOf (events (availableCommands initialState)).

(** What holds of the outputs between two turns of the main loop. *)
Definition loopInvariant (st : State) : Prop :=
  buzzerPeriodMs (board st) = 2 /\
  buzzerDuty (board st)
    = (if gasDetected (globals st) || tempExceeded (globals st)
       then F32.half else F32.zero) /\
  (gasDetected (globals st) || tempExceeded (globals st) = false ->
   led (board st) = false) /\
  0 <= lastPrintTime (statics st) < 2 ^ 32.

(** The ticker reads 1200 ms, then 1900 ms; every analog read is 0. *)
Definition twoTicksEnv : Env :=
  mkEnv (fun _ _ => F32.zero) (fun n => nth n [1200000; 1900000] 0)
        (fun _ => None).

(** The LM35 input reads 0 for the ten samples of one [checkSensors] run and
    0.75 afterwards; the operator types ['c'] then ['q']. *)
Definition warmUpEnv : Env :=
  mkEnv (fun s n =>
           match s with
           | lm35 => if (n <? 10)%nat then F32.zero else F32.decimal 3 4
           | _ => F32.zero
           end)
        (fun _ => 0)
        (fun n => nth n [Some "c"%char; Some "q"%char] None).

(** The microsecond ticker is read just before it wraps (4294967295 us),
    then 100 ms into its next round (100000 us); every analog read is 0 and
    nothing arrives on the UART. *)
Definition tickerWrapEnv : Env :=
  mkEnv (fun _ _ => F32.zero) (fun n => nth n [4294967295; 100000] 0)
        (fun _ => None).

(** The operator types ['a'] and never quits. *)
Definition neverQuitEnv : Env := typedEnv (F32.decimal 3 4) [Some "a"%char].

(** The initial state after a console session has left other values in the
    globals. *)
Definition scribbledState : State :=
  mkState (mkGlobals (F32.of_int 1) (F32.of_int 330) (F32.of_int 626)
                     (F32.of_int 1) F32.zero F32.zero true true)
          (statics initialState) (board initialState).

(** ** Helper lemmas *)

#[local] Arguments F32.add : simpl never.
#[local] Arguments F32.mul : simpl never.
#[local] Arguments F32.div : simpl never.
#[local] Arguments F32.gtb : simpl never.

Lemma sensorPos_set_same (s : Sensor) (n : nat) (b : Board) :
  sensorPos s (set_sensorPos s n b) = n.
Proof. destruct s; reflexivity. Qed.

Lemma set_sensorPos_twice (s : Sensor) (n m : nat) (b : Board) :
  set_sensorPos s m (set_sensorPos s n b) = set_sensorPos s m b.
Proof. destruct s; reflexivity. Qed.

Lemma set_sensorPos_same (s : Sensor) (b : Board) :
  set_sensorPos s (sensorPos s b) b = b.
Proof. destruct s, b; reflexivity. Qed.

Lemma sampleLoop_run (env : Env) (s : Sensor) (n : nat) :
  forall (acc : float) (st : State),
    sampleLoop env n s acc st =
      (fold_left F32.add (window env s (sensorPos s (board st)) n) acc,
       mkState (globals st) (statics st)
               (set_sensorPos s (sensorPos s (board st) + n) (board st)),
       samplingLog s (window env s (sensorPos s (board st)) n)).
Proof.
  induction n as [|n IH]; intros acc st.
  - cbn. rewrite Nat.add_0_r, set_sensorPos_same. now destruct st.
  - cbn [sampleLoop]. unfold bind at 1. cbn [analogRead].
    unfold bind at 1. cbn [sleep_for emit]. rewrite IH. cbn.
    rewrite sensorPos_set_same, set_sensorPos_twice.
    now rewrite <- Nat.add_succ_comm.
Qed.

Lemma readStableAnalog_run (env : Env) (s : Sensor) (st : State) :
  readStableAnalog env s st =
    (average10 (window env s (sensorPos s (board st)) 10),
     mkState (globals st) (statics st)
             (set_sensorPos s (sensorPos s (board st) + 10) (board st)),
     samplingLog s (window env s (sensorPos s (board st)) 10)).
Proof.
  unfold readStableAnalog, bind. rewrite sampleLoop_run.
  unfold ret, average10. now rewrite app_nil_r.
Qed.

Lemma samplesOf_app (s : Sensor) (l1 l2 : list Event) :
  samplesOf s (l1 ++ l2) = (samplesOf s l1 ++ samplesOf s l2)%list.
Proof. unfold samplesOf. apply flat_map_app. Qed.

Lemma samplesOf_samplingLog_same (s : Sensor) (l : list float) :
  samplesOf s (samplingLog s l) = l.
Proof.
  induction l as [|v l IH]; [reflexivity|].
  unfold samplesOf, samplingLog in *. cbn [flat_map app].
  rewrite IH. now destruct s.
Qed.

Lemma samplesOf_samplingLog_other (s s' : Sensor) (l : list float) :
  s <> s' -> samplesOf s (samplingLog s' l) = [].
Proof.
  intros Hne. induction l as [|v l IH]; [reflexivity|].
  unfold samplesOf, samplingLog in *. cbn [flat_map app].
  rewrite IH. destruct s, s'; try reflexivity; now elim Hne.
Qed.

Lemma window_length (env : Env) (s : Sensor) (pos n : nat) :
  List.length (window env s pos n) = n.
Proof. unfold window. now rewrite length_map, length_seq. Qed.

(** ** The unit converters *)

(** C4: the LM35 formula multiplies by 330.0, the Celsius-to-Fahrenheit
    conversion maps 0 to 32.0 and 100 to 212.0, and the potentiometer's
    Fahrenheit scaling is the composition of the two; the potentiometer's
    Celsius scaling uses the same coefficient 330.0. *)
Theorem unit_converters_linear_and_composed :
  forall v : float,
    analogReadingScaledWithTheLM35Formula v = F32.mul v (F32.of_int 330) /\
    celsiusToFahrenheit (F32.of_int 0) = F32.of_int 32 /\
    celsiusToFahrenheit (F32.of_int 100) = F32.of_int 212 /\
    potentiometerScaledToCelsius v = analogReadingScaledWithTheLM35Formula v /\
    potentiometerScaledToFahrenheit v =
      celsiusToFahrenheit (analogReadingScaledWithTheLM35Formula v).
Proof.
  intro v. repeat split; try reflexivity; now vm_compute.
Qed.

(** ** The analog sampler *)

(** C7: [readStableAnalog] makes exactly ten single-shot reads of its input,
    each followed by the same 10 ms sleep, and returns their float mean
    (sum accumulated from 0, divided by 10); on the readings 0.1, ..., 1.0
    the mean is the binary32 number 0.55, the nearest one to 55/100. *)
Theorem readStableAnalog_mean_of_ten_reads :
  forall (env : Env) (sensor : Sensor) (st : State),
    let pos := sensorPos sensor (board st) in
    let r := readStableAnalog env sensor st in
    result r = average10 (window env sensor pos 10) /\
    List.length (window env sensor pos 10) = 10%nat /\
    events r = samplingLog sensor (window env sensor pos 10) /\
    samplesOf sensor (events r) = window env sensor pos 10 /\
    sensorPos sensor (board (final r)) = (pos + 10)%nat /\
    globals (final r) = globals st /\
    statics (final r) = statics st /\
    average10 (map (fun k => F32.decimal k 10) [1; 2; 3; 4; 5; 6; 7; 8; 9; 10])
      = F32.decimal 55 100 /\
    result (readStableAnalog rampEnv sensor initialState) = F32.decimal 55 100 /\
    F32.toQ (F32.decimal 55 100) = Some (9227469 # 16777216)%Q /\
    (Qabs ((9227469 # 16777216) - (55 # 100)) <= 1 # 33554432)%Q.
Proof.
  intros env sensor st pos r. subst r. rewrite readStableAnalog_run.
  unfold result, final, events; cbn [fst snd globals statics board].
  rewrite sensorPos_set_same, samplesOf_samplingLog_same.
  rewrite window_length.
  repeat split; try reflexivity.
  - now destruct sensor; vm_compute.
  - now vm_compute.
Qed.

(** ** One run of [checkSensors], summarised *)

Lemma readAllSensors_run (env : Env) (st : State) :
  readAllSensors env st =
    (sampledGas env st,
     mkState
       (mkGlobals (sampledLm35 env st) (sampledTempC env st)
                  (celsiusToFahrenheit (sampledTempC env st)) (sampledPot env st)
                  (potentiometerScaledToC (globals st))
                  (potentiometerScaledToF (globals st))
                  (gasDetected (globals st)) (tempExceeded (globals st)))
       (statics st)
       (mkBoard (buzzerPeriodMs (board st)) (buzzerDuty (board st)) (led (board st))
                (gasPos (board st) + 10) (lm35Pos (board st) + 10)
                (potPos (board st) + 10)
                (tickerPos (board st)) (uartPos (board st))),
     samplingPhase env st).
Proof.
  unfold readAllSensors. unfold bind at 1. rewrite readStableAnalog_run.
  unfold bind at 1. rewrite readStableAnalog_run.
  unfold bind, modG, getG, ret. rewrite readStableAnalog_run.
  cbn [globals statics board fst snd sensorPos set_sensorPos app
       lm35Reading lm35TempC].
  unfold sampledGas, sampledTempC, sampledLm35, sampledPot, samplingPhase,
    gasWindow, lm35Window, potWindow.
  unfold set_potentiometerReading, set_lm35TempF, set_lm35TempC, set_lm35Reading.
  cbn [lm35Reading lm35TempC lm35TempF potentiometerReading
       potentiometerScaledToC potentiometerScaledToF gasDetected tempExceeded
       buzzerPeriodMs buzzerDuty led gasPos lm35Pos potPos tickerPos uartPos].
  rewrite !app_nil_r. reflexivity.
Qed.

Lemma checkGas_run (g : float) (st : State) :
  checkGas g st =
    (tt,
     mkState (set_gasDetected (F32.gtb g F32.half) (globals st))
             (set_lastGasDetected (F32.gtb g F32.half) (statics st))
             (board st),
     edgeLog detectedLine noLongerDetectedLine (F32.gtb g F32.half)
             (lastGasDetected (statics st))).
Proof.
  unfold checkGas. destruct st as [gl [lg lt lp] bd].
  destruct (F32.gtb g F32.half), lg; reflexivity.
Qed.

Lemma checkTemperature_run (st : State) :
  checkTemperature st =
    (tt,
     mkState (set_tempExceeded (F32.gtb (lm35TempC (globals st)) F32.f24) (globals st))
             (set_lastTempExceeded (F32.gtb (lm35TempC (globals st)) F32.f24)
                                   (statics st))
             (board st),
     edgeLog exceedsLine belowLine (F32.gtb (lm35TempC (globals st)) F32.f24)
             (lastTempExceeded (statics st))).
Proof.
  unfold checkTemperature, bind at 1, getG.
  destruct st as [gl [lg lt lp] bd]. cbn [globals statics board].
  destruct (F32.gtb (lm35TempC gl) F32.f24), lt; reflexivity.
Qed.

Lemma printReadings_run (env : Env) (g : float) (st : State) :
  printReadings env g st =
    (tt,
     mkState (globals st)
             (if reportDue env st
              then set_lastPrintTime (tickMs env st) (statics st)
              else statics st)
             (set_tickerPos (S (tickerPos (board st))) (board st)),
     reportLog (tickUs env st) (reportDue env st) g
               (lm35TempC (globals st)) (potentiometerReading (globals st))).
Proof.
  unfold printReadings, bind at 1, us_ticker_read.
  unfold bind at 1, getS. cbn [statics].
  unfold reportLog, reportDue, tickMs, tickUs.
  destruct (1000 <=? _)%Z; reflexivity.
Qed.

Lemma controlAlarm_run (st : State) :
  controlAlarm st =
    (tt,
     mkState (globals st) (statics st)
             (set_led (if gasDetected (globals st) || tempExceeded (globals st)
                       then negb (led (board st)) else false)
                (set_buzzerDuty
                   (if gasDetected (globals st) || tempExceeded (globals st)
                    then F32.half else F32.zero)
                   (board st))),
     alarmLog (gasDetected (globals st)) (tempExceeded (globals st))
              (led (board st))).
Proof.
  unfold controlAlarm, alarmLog, bind at 1, getG.
  unfold bind at 1. 
  destruct (gasDetected (globals st)), (tempExceeded (globals st)); reflexivity.
Qed.

Lemma checkSensors_run (env : Env) (st : State) :
  checkSensors env st =
    (tt, afterCheck env st,
     (samplingPhase env st ++ evaluationPhase env st
        ++ reportPhase env st ++ actuationPhase env st)%list).
Proof.
  unfold checkSensors. unfold bind at 1. rewrite readAllSensors_run.
  unfold bind at 1. rewrite checkGas_run.
  unfold bind at 1. rewrite checkTemperature_run.
  unfold bind at 1. rewrite printReadings_run.
  rewrite controlAlarm_run.
  unfold afterCheck, evaluationPhase, reportPhase, actuationPhase.
  unfold reportDue, tickMs, tickUs, gasNow, tempNow.
  cbn [globals statics board set_gasDetected set_tempExceeded
       set_lastGasDetected set_lastTempExceeded set_lastPrintTime
       set_tickerPos set_led set_buzzerDuty
       lm35Reading lm35TempC lm35TempF potentiometerReading
       potentiometerScaledToC potentiometerScaledToF gasDetected tempExceeded
       lastGasDetected lastTempExceeded lastPrintTime
       buzzerPeriodMs buzzerDuty led gasPos lm35Pos potPos tickerPos uartPos].
  rewrite <- !app_assoc.
  destruct (1000 <=? _)%Z; reflexivity.
Qed.

(** ** Counting lines in the phases of a run *)

Lemma countLit_app (s : string) (l1 l2 : list Event) :
  countLit s (l1 ++ l2) = (countLit s l1 + countLit s l2)%nat.
Proof. unfold countLit. now rewrite filter_app, length_app. Qed.

Lemma countFmt_app (f : string) (l1 l2 : list Event) :
  countFmt f (l1 ++ l2) = (countFmt f l1 + countFmt f l2)%nat.
Proof. unfold countFmt. now rewrite filter_app, length_app. Qed.

Lemma countLit_samplingLog (s : string) (sn : Sensor) (l : list float) :
  countLit s (samplingLog sn l) = 0%nat.
Proof. induction l as [|v l IH]; [reflexivity | exact IH]. Qed.

Lemma countFmt_samplingLog (f : string) (sn : Sensor) (l : list float) :
  countFmt f (samplingLog sn l) = 0%nat.
Proof. induction l as [|v l IH]; [reflexivity | exact IH]. Qed.

Lemma countLit_samplingPhase (s : string) (env : Env) (st : State) :
  countLit s (samplingPhase env st) = 0%nat.
Proof.
  unfold samplingPhase. now rewrite !countLit_app, !countLit_samplingLog.
Qed.

Lemma countFmt_samplingPhase (f : string) (env : Env) (st : State) :
  countFmt f (samplingPhase env st) = 0%nat.
Proof.
  unfold samplingPhase. now rewrite !countFmt_app, !countFmt_samplingLog.
Qed.

Lemma countLit_reportLog (s : string) (us : Z) (due : bool) (g c p : float) :
  countLit s (reportLog us due g c p) = 0%nat.
Proof. now destruct due. Qed.

Lemma countFmt_edgeLog (f on off : string) (now last : bool) :
  countFmt f (edgeLog on off now last) = 0%nat.
Proof. now destruct now, last. Qed.

Lemma countFmt_alarmLog (f : string) (g t l : bool) :
  countFmt f (alarmLog g t l) = 0%nat.
Proof. now destruct g, t. Qed.

Lemma countWrites_reportLog (us : Z) (due : bool) (g c p : float) :
  countWrites (reportLog us due g c p) = if due then 1%nat else 0%nat.
Proof. now destruct due. Qed.

Lemma countFmt_reportLog (us : Z) (due : bool) (g c p : float) :
  countFmt statusFormat (reportLog us due g c p) = if due then 1%nat else 0%nat.
Proof. now destruct due. Qed.

(** Each kind of line, counted over one whole run of [checkSensors]. *)
Lemma checkSensors_counts (env : Env) (st : State) :
  let evs := events (checkSensors env st) in
  let lastGas := lastGasDetected (statics st) in
  countLit detectedLine evs
    = (if gasNow env st && negb lastGas then 1 else 0)%nat /\
  countLit noLongerDetectedLine evs
    = (if negb (gasNow env st) && lastGas then 1 else 0)%nat /\
  countLit gasAlarmLine evs = (if gasNow env st then 1 else 0)%nat /\
  countLit temperatureAlarmLine evs = (if tempNow env st then 1 else 0)%nat /\
  countFmt statusFormat evs = (if reportDue env st then 1 else 0)%nat.
Proof.
  cbv zeta. rewrite checkSensors_run. unfold events; cbn [snd].
  rewrite !countLit_app, !countFmt_app, !countLit_samplingPhase,
    countFmt_samplingPhase.
  unfold evaluationPhase, reportPhase, actuationPhase.
  rewrite !countLit_app, !countFmt_app, !countLit_reportLog, !countFmt_edgeLog,
    countFmt_alarmLog, countFmt_reportLog.
  destruct (gasNow env st), (tempNow env st), (lastGasDetected (statics st)),
    (lastTempExceeded (statics st)), (reportDue env st);
    repeat split; vm_compute; reflexivity.
Qed.

(** ** The actuator *)

(** C5: the actuator step sets the duty cycle to 0.5 and inverts the LED
    when either flag is set, printing "Gas Alarm" once exactly when
    [gasDetected] and "Temperature Alarm" once exactly when [tempExceeded];
    otherwise it sets the duty cycle to 0.0 and the LED off.  This holds at
    every run of [checkSensors], whatever the edge memory was. *)
Theorem actuator_follows_alarm_flags :
  forall (env : Env) (st : State),
    let g := gasDetected (globals st) in
    let t := tempExceeded (globals st) in
    let r := controlAlarm st in
    (buzzerDuty (board (final r)) = (if g || t then F32.decimal 5 10 else F32.of_int 0) /\
     led (board (final r)) = (if g || t then negb (led (board st)) else false) /\
     countLit gasAlarmLine (events r) = (if g then 1 else 0)%nat /\
     countLit temperatureAlarmLine (events r) = (if t then 1 else 0)%nat /\
     events r = alarmLog g t (led (board st)) /\
     globals (final r) = globals st /\ statics (final r) = statics st) /\
    let c := checkSensors env st in
    let g' := gasDetected (globals (final c)) in
    let t' := tempExceeded (globals (final c)) in
    buzzerDuty (board (final c)) = (if g' || t' then F32.decimal 5 10 else F32.of_int 0) /\
    led (board (final c)) = (if g' || t' then negb (led (board st)) else false) /\
    countLit gasAlarmLine (events c) = (if g' then 1 else 0)%nat /\
    countLit temperatureAlarmLine (events c) = (if t' then 1 else 0)%nat.
Proof.
  intros env st g t r. split.
  - subst r. rewrite controlAlarm_run. unfold final, events; cbn [fst snd].
    cbn [board globals statics set_led set_buzzerDuty buzzerDuty led].
    fold g t. destruct g, t; repeat split; reflexivity.
  - intros c g' t'.
    destruct (checkSensors_counts env st) as (_ & _ & Hg & Ht & _).
    fold c in Hg, Ht. subst g' t'. subst c.
    rewrite Hg, Ht. rewrite checkSensors_run.
    unfold final; cbn [fst snd]. unfold afterCheck.
    cbn [globals board gasDetected tempExceeded buzzerDuty led].
    destruct (gasNow env st), (tempNow env st); repeat split; reflexivity.
Qed.

(** ** The console session, summarised *)

Lemma streamBody_run (env : Env) (cmd : Command) (st : State) :
  let r := streamBody env cmd st in
  let polled := uartRx env (uartPos (board st)) in
  result r = charOf polled /\
  events r = (streamReads env cmd st
                ++ [EvUartWrite (Fmt (commandFormat cmd) (streamArgs env cmd st));
                    EvSleep 200; EvUartPoll polled])%list /\
  uartPos (board (final r)) = S (uartPos (board st)) /\
  statics (final r) = statics st /\
  alarmState (final r) = alarmState st.
Proof.
  destruct cmd; repeat split; reflexivity.
Qed.

Lemma isQuit_spec (c : ascii) :
  isQuit c = true <-> c = "q"%char \/ c = "Q"%char.
Proof.
  unfold isQuit. rewrite orb_true_iff, !Ascii.eqb_eq. reflexivity.
Qed.

Lemma isQuit_charOf (p : option ascii) :
  isQuit (charOf p) = true -> p = Some (charOf p).
Proof. destruct p as [c|]; [reflexivity | discriminate]. Qed.

Lemma writesOnly_app (f : string) (l1 l2 : list Event) :
  writesOnly f (l1 ++ l2) = writesOnly f l1 && writesOnly f l2.
Proof. apply forallb_app. Qed.

Lemma countWrites_app (l1 l2 : list Event) :
  countWrites (l1 ++ l2) = (countWrites l1 + countWrites l2)%nat.
Proof. unfold countWrites. now rewrite filter_app, length_app. Qed.

Lemma streamBody_events_shape (env : Env) (cmd : Command) (st : State) :
  let evs := events (streamBody env cmd st) in
  writesOnly (commandFormat cmd) evs = true /\
  countWrites evs = 1%nat /\
  countFmt (commandFormat cmd) evs = 1%nat.
Proof.
  destruct cmd; repeat split; vm_compute; reflexivity.
Qed.

(** One test of the loop condition that does not quit runs the body once
    and goes round again with the same body. *)
Lemma whileNotQuit_continue (fuel : nat) (body : M ascii)
      (c : ascii) (st : State) :
  isQuit c = false ->
  whileNotQuit (S fuel) body c st =
    match whileNotQuit fuel body (result (body st)) (final (body st)) with
    | Some (st2, ev2) => Some (st2, (events (body st) ++ ev2)%list)
    | None => None
    end.
Proof.
  intros Hc. cbn [whileNotQuit]. rewrite Hc.
  unfold result, final, events. now destruct (body st) as [[c1 st1] ev1].
Qed.

Lemma whileNotQuit_stop (fuel : nat) (body : M ascii) (c : ascii) (st : State) :
  isQuit c = true -> whileNotQuit (S fuel) body c st = Some (st, []).
Proof. intros Hc. cbn [whileNotQuit]. now rewrite Hc. Qed.

(** The streaming loops leave the alarm flags and the statics of
    [checkSensors] alone, and print nothing but their own line. *)
Lemma whileNotQuit_preserves (env : Env) (cmd : Command) (fuel : nat) :
  forall (c : ascii) (st st' : State) (evs : list Event),
    whileNotQuit fuel (streamBody env cmd) c st = Some (st', evs) ->
    alarmState st' = alarmState st /\ statics st' = statics st /\
    writesOnly (commandFormat cmd) evs = true.
Proof.
  induction fuel as [|fuel IH]; intros c st st' evs H; [discriminate|].
  destruct (isQuit c) eqn:Hc.
  - rewrite whileNotQuit_stop in H by assumption.
    injection H as <- <-. repeat split.
  - rewrite whileNotQuit_continue in H by assumption.
    destruct (whileNotQuit fuel _ _ _) as [[st2 ev2]|] eqn:Hrec; [|discriminate].
    injection H as <- <-. apply IH in Hrec as (Ha & Hs & Hw).
    destruct (streamBody_run env cmd st) as (_ & _ & _ & Hs1 & Ha1).
    destruct (streamBody_events_shape env cmd st) as (Hw1 & _).
    cbv zeta in Hw1. rewrite writesOnly_app, Hw1, Hw.
    repeat split; congruence.
Qed.

(** A loop that returns was ended by a polled ['q'] or ['Q']. *)
Lemma whileNotQuit_ends_on_quit (env : Env) (cmd : Command) (fuel : nat) :
  forall (c : ascii) (st st' : State) (evs : list Event),
    isQuit c = false ->
    whileNotQuit fuel (streamBody env cmd) c st = Some (st', evs) ->
    exists (pre : list Event) (q : ascii),
      evs = (pre ++ [EvUartPoll (Some q)])%list /\ isQuit q = true.
Proof.
  induction fuel as [|fuel IH]; intros c st st' evs Hc H; [discriminate|].
  rewrite whileNotQuit_continue in H by assumption.
  destruct (whileNotQuit fuel _ _ _) as [[st2 ev2]|] eqn:Hrec; [|discriminate].
  injection H as <- <-.
  destruct (streamBody_run env cmd st) as (Hres & Hev & _).
  cbv zeta in Hres, Hev.
  destruct (isQuit (result (streamBody env cmd st))) eqn:Hq.
  - destruct fuel as [|fuel]; [discriminate|].
    rewrite whileNotQuit_stop in Hrec by assumption. injection Hrec as <- <-.
    rewrite Hres in Hq. pose proof (isQuit_charOf _ Hq) as Hp.
    exists (streamReads env cmd st
              ++ [EvUartWrite (Fmt (commandFormat cmd) (streamArgs env cmd st));
                  EvSleep 200])%list,
      (charOf (uartRx env (uartPos (board st)))).
    split; [|assumption].
    rewrite app_nil_r, Hev, <- Hp, <- app_assoc. reflexivity.
  - destruct (IH _ _ _ _ Hq Hrec) as (pre & q & -> & Hquit).
    exists (events (streamBody env cmd st) ++ pre)%list, q.
    split; [now rewrite app_assoc | assumption].
Qed.

(** With [k] more bytes that are not a quit and then a quit, the loop
    returns after [k + 1] turns, given fuel for its [k + 2] tests. *)
Lemma whileNotQuit_until_quit (env : Env) (cmd : Command) (k : nat) :
  forall (c : ascii) (st : State) (fuel : nat),
    isQuit c = false ->
    (forall i, (i < k)%nat -> isQuit (charAt env (uartPos (board st) + i)) = false) ->
    isQuit (charAt env (uartPos (board st) + k)) = true ->
    (k + 2 <= fuel)%nat ->
    exists (st' : State) (evs : list Event),
      whileNotQuit fuel (streamBody env cmd) c st = Some (st', evs) /\
      countWrites evs = S k /\
      countFmt (commandFormat cmd) evs = S k /\
      uartPos (board st') = (uartPos (board st) + S k)%nat.
Proof.
  induction k as [|k IH]; intros c st fuel Hc Hnq Hq Hfuel.
  - destruct fuel as [|[|fuel]]; [lia | lia |].
    rewrite whileNotQuit_continue by assumption.
    destruct (streamBody_run env cmd st) as (Hres & _ & Hpos & _).
    destruct (streamBody_events_shape env cmd st) as (_ & Hw & Hf).
    cbv zeta in Hres, Hpos, Hw, Hf.
    rewrite Nat.add_0_r in Hq. unfold charAt in Hq. rewrite <- Hres in Hq.
    rewrite whileNotQuit_stop by assumption.
    eexists _, _. split; [reflexivity|].
    rewrite app_nil_r, Hw, Hf, Hpos. repeat split. lia.
  - destruct fuel as [|fuel]; [lia|].
    rewrite whileNotQuit_continue by assumption.
    destruct (streamBody_run env cmd st) as (Hres & _ & Hpos & _).
    destruct (streamBody_events_shape env cmd st) as (_ & Hw & Hf).
    cbv zeta in Hres, Hpos, Hw, Hf.
    destruct (IH (result (streamBody env cmd st)) (final (streamBody env cmd st)) fuel)
      as (st' & evs & Hrun & Hw' & Hf' & Hpos').
    + rewrite Hres. specialize (Hnq 0%nat ltac:(lia)).
      now rewrite Nat.add_0_r in Hnq.
    + intros i Hi. rewrite Hpos. specialize (Hnq (S i) ltac:(lia)).
      now rewrite Nat.add_succ_r in Hnq.
    + rewrite Hpos. now rewrite Nat.add_succ_r in Hq.
    + lia.
    + rewrite Hrun. eexists _, _. split; [reflexivity|].
      rewrite countWrites_app, countFmt_app, Hw, Hf, Hw', Hf', Hpos', Hpos.
      repeat split; lia.
Qed.

Lemma uartTask_preserves (env : Env) (fuel : nat) (st st' : State)
      (evs : list Event) :
  uartTask env fuel st = Some (st', evs) ->
  alarmState st' = alarmState st /\ statics st' = statics st.
Proof.
  unfold uartTask, pcSerialComCharRead.
  destruct (negb _); [|intros H; injection H as <- <-; now split].
  destruct (commandOf _) as [cmd|]; [|intros H; injection H as <- <-; now split].
  destruct (whileNotQuit _ _ _ _) as [[st2 ev2]|] eqn:Hloop; [|discriminate].
  intros H; injection H as <- <-.
  apply whileNotQuit_preserves in Hloop as (Ha & Hs & _). now split.
Qed.

(** ** The main loop, summarised *)

Lemma mainIteration_run (env : Env) (fuel : nat) (st st' : State)
      (evs : list Event) :
  mainIteration env fuel st = Some (st', evs) ->
  exists console : list Event,
    uartTask env fuel (afterCheck env st) = Some (st', console) /\
    evs = (samplingPhase env st ++ evaluationPhase env st ++ reportPhase env st
             ++ actuationPhase env st ++ console ++ [EvSleep 200])%list.
Proof.
  unfold mainIteration. rewrite checkSensors_run.
  destruct (uartTask _ _ _) as [[st2 ev2]|]; [|discriminate].
  unfold sleep_for, emit. cbv beta iota.
  rewrite <- !app_assoc. intros H. exists ev2. split; congruence.
Qed.

Lemma afterCheck_edgeMemory (env : Env) (st : State) :
  edgeMemory (afterCheck env st) = alarmState (afterCheck env st).
Proof.
  unfold edgeMemory, alarmState, afterCheck.
  cbn [globals statics gasDetected tempExceeded lastGasDetected lastTempExceeded].
  reflexivity.
Qed.

Lemma mainLoop_S (env : Env) (n fuel : nat) (st : State) :
  mainLoop env (S n) fuel st =
    match mainIteration env fuel st with
    | Some (st1, ev1) =>
        match mainLoop env n fuel st1 with
        | Some (st2, ev2) => Some (st2, (ev1 ++ ev2)%list)
        | None => None
        end
    | None => None
    end.
Proof. reflexivity. Qed.

Lemma mainLoop_edgeMemory (env : Env) (fuel n : nat) :
  forall (st st' : State) (evs : list Event),
    edgeMemory st = alarmState st ->
    mainLoop env n fuel st = Some (st', evs) ->
    edgeMemory st' = alarmState st'.
Proof.
  induction n as [|n IH]; intros st st' evs Hinv H.
  - injection H as <- <-. assumption.
  - rewrite mainLoop_S in H.
    destruct (mainIteration env fuel st) as [[st1 ev1]|] eqn:Hit; [|discriminate].
    destruct (mainLoop env n fuel st1) as [[st2 ev2]|] eqn:Hrest; [|discriminate].
    injection H as <- <-. apply (IH st1 st2 ev2); [|assumption].
    apply mainIteration_run in Hit as (console & Hu & _).
    apply uartTask_preserves in Hu as (Ha & Hs).
    unfold edgeMemory. rewrite Hs, Ha. apply afterCheck_edgeMemory.
Qed.

(** C3: after every run of [checkSensors] the edge memory
    ([lastGasDetected], [lastTempExceeded]) equals the alarm state
    ([gasDetected], [tempExceeded]), from any state and for any samples; so
    it does in every state [main] reaches between two turns of its loop. *)
Theorem edge_memory_equals_alarm_state :
  forall (env : Env) (st : State),
    (let st' := final (checkSensors env st) in
     lastGasDetected (statics st') = gasDetected (globals st') /\
     lastTempExceeded (statics st') = tempExceeded (globals st')) /\
    (forall (n fuel : nat) (st' : State) (evs : list Event),
        main env n fuel = Some (st', evs) ->
        edgeMemory st' = alarmState st').
Proof.
  intros env st. split.
  - rewrite checkSensors_run. unfold final, afterCheck; cbn [fst snd].
    cbn [globals statics gasDetected tempExceeded lastGasDetected lastTempExceeded].
    split; reflexivity.
  - intros n fuel st' evs H. unfold main in H.
    destruct (mainSetup initialState) as [[u st0] ev0] eqn:Hsetup.
    destruct (mainLoop env n fuel st0) as [[st1 ev1]|] eqn:Hloop; [|discriminate].
    injection H as <- <-.
    apply (mainLoop_edgeMemory env fuel n st0 st1 ev1); [|assumption].
    vm_compute in Hsetup. injection Hsetup as _ <- _. reflexivity.
Qed.

Lemma edge_memory_equals_alarm_state_witness :
  exists (st' : State) (evs : list Event),
    main sessionEnv 2 10 = Some (st', evs) /\
    edgeMemory st' = alarmState st' /\
    alarmState st' = (true, true).
Proof.
  destruct (main sessionEnv 2 10) as [[st' evs]|] eqn:H;
    [|vm_compute in H; discriminate].
  exists st', evs. split; [reflexivity|]. split.
  - exact (proj2 (edge_memory_equals_alarm_state sessionEnv initialState)
                 2%nat 10%nat st' evs H).
  - vm_compute in H. injection H as <- _. reflexivity.
Defined.

(** ** Where the alarm flags are written *)

Lemma checkSensors_final (env : Env) (st : State) :
  final (checkSensors env st) = afterCheck env st.
Proof. now rewrite checkSensors_run. Qed.

(** C2: after [checkSensors] the flags are the strict comparisons of this
    run's samples: [gasDetected] is (gas reading > 0.5) and [tempExceeded] is
    (Celsius temperature > 24.0), so exactly 24.0 leaves [tempExceeded]
    false; no other operation of the program writes either flag. *)
Theorem alarm_flags_strict_thresholds :
  forall (env : Env) (st : State),
    let gasReading := result (readStableAnalog env gasSensor st) in
    let st' := final (checkSensors env st) in
    (gasDetected (globals st') = F32.gtb gasReading (F32.decimal 5 10) /\
     lm35TempC (globals st')
       = analogReadingScaledWithTheLM35Formula
           (average10 (window env lm35 (lm35Pos (board st)) 10)) /\
     tempExceeded (globals st') = F32.gtb (lm35TempC (globals st')) (F32.of_int 24) /\
     (lm35TempC (globals st') = F32.of_int 24 -> tempExceeded (globals st') = false)) /\
    (forall (fuel : nat) (st2 : State) (evs : list Event),
        uartTask env fuel st = Some (st2, evs) -> alarmState st2 = alarmState st) /\
    (forall s : Sensor, keepsAlarmState (readStableAnalog env s)) /\
    keepsAlarmState (readAllSensors env) /\
    (forall g : float, keepsAlarmState (printReadings env g)) /\
    keepsAlarmState controlAlarm /\
    (forall t : Text, keepsAlarmState (pcSerialComStringWrite t)) /\
    keepsAlarmState (pcSerialComCharRead env) /\
    keepsAlarmState availableCommands /\
    keepsAlarmState mainSetup /\
    (forall ms : Z, keepsAlarmState (sleep_for ms)).
Proof.
  intros env st gasReading st'. split; [|split].
  - subst gasReading st'. rewrite readStableAnalog_run, checkSensors_final.
    unfold result, afterCheck; cbn [fst globals gasDetected tempExceeded lm35TempC].
    assert (Hb : F32.gtb (F32.of_int 24) (F32.of_int 24) = false) by now vm_compute.
    repeat split. intros H. unfold tempNow. rewrite H. exact Hb.
  - intros fuel st2 evs H. now apply uartTask_preserves in H.
  - unfold keepsAlarmState.
    refine (conj _ (conj _ (conj _ (conj _ (conj _ (conj _ (conj _ (conj _ _))))))));
      intros.
    + now rewrite readStableAnalog_run.
    + now rewrite readAllSensors_run.
    + now rewrite printReadings_run.
    + now rewrite controlAlarm_run.
    + reflexivity.
    + reflexivity.
    + reflexivity.
    + reflexivity.
    + reflexivity.
Qed.

Lemma alarm_flags_strict_thresholds_witness :
  (lm35TempC (globals (final (checkSensors (quietEnv boundarySample) initialState)))
     = F32.of_int 24 /\
   tempExceeded (globals (final (checkSensors (quietEnv boundarySample) initialState)))
     = false) /\
  (exists (st2 : State) (evs : list Event),
      uartTask aThenQEnv 5 initialState = Some (st2, evs) /\
      alarmState st2 = alarmState initialState).
Proof.
  split.
  - split; [now vm_compute|].
    apply (proj1 (alarm_flags_strict_thresholds (quietEnv boundarySample) initialState)).
    now vm_compute.
  - destruct (uartTask aThenQEnv 5 initialState) as [[st2 evs]|] eqn:H;
      [|vm_compute in H; discriminate].
    exists st2, evs. split; [reflexivity|].
    exact (proj1 (proj2 (alarm_flags_strict_thresholds aThenQEnv initialState))
                 5%nat st2 evs H).
Defined.

(** ** The periodic reporter *)

Lemma tickMs_range (env : Env) (st : State) : 0 <= tickMs env st < 2 ^ 32.
Proof.
  unfold tickMs, tickUs.
  pose proof (Z.mod_pos_bound (usTicker env (tickerPos (board st))) (2 ^ 32)
                ltac:(lia)) as Hb.
  split; [apply Z.div_pos; lia|].
  apply Z.div_lt_upper_bound; lia.
Qed.

Lemma reportDue_at (env : Env) (st : State) (us last : Z) :
  usTicker env (tickerPos (board st)) = us ->
  lastPrintTime (statics st) = last ->
  reportDue env st = (1000 <=? (us mod 2 ^ 32 / 1000 - last) mod 2 ^ 32)%Z /\
  tickMs env st = us mod 2 ^ 32 / 1000.
Proof. intros <- <-. split; reflexivity. Qed.

(** The difference is taken in [uint32_t]: once the microsecond ticker has
    wrapped, the millisecond tick is below the recorded one, the difference
    wraps to a large number and the line is printed. *)
Lemma reportDue_after_ticker_wrap (env : Env) (st : State) :
  usTicker env (tickerPos (board st)) = 5000 ->
  lastPrintTime (statics st) = 4294000 ->
  tickMs env st = 5 /\ reportDue env st = true.
Proof.
  intros Hus Hlast. destruct (reportDue_at env st _ _ Hus Hlast) as (-> & ->).
  split; reflexivity.
Qed.

Lemma afterCheck_tickerPos (env : Env) (st : State) :
  tickerPos (board (afterCheck env st)) = S (tickerPos (board st)).
Proof. reflexivity. Qed.

Lemma afterCheck_lastPrintTime (env : Env) (st : State) :
  lastPrintTime (statics (afterCheck env st))
    = if reportDue env st then tickMs env st else lastPrintTime (statics st).
Proof. reflexivity. Qed.

(** The reporter's gate as the code computes it: the status line is printed
    exactly when the [uint32_t] difference of the current millisecond tick
    and the tick of the last print, that is their difference modulo 2^32,
    is at least 1000, and the current tick is then recorded; as long as the
    current tick is not below the recorded one this is the plain
    difference, and with the reference at 0 and runs at ticks 0, 400, 900
    and 1050 ms only the last one prints. *)
Theorem periodic_report_gate :
  forall (env : Env) (g : float) (st : State),
    let r := printReadings env g st in
    let currentTime := tickMs env st in
    let last := lastPrintTime (statics st) in
    let due := (1000 <=? (currentTime - last) mod 2 ^ 32)%Z in
    (events r = reportLog (tickUs env st) due g (lm35TempC (globals st))
                          (potentiometerReading (globals st)) /\
     countFmt statusFormat (events r) = (if due then 1 else 0)%nat /\
     countWrites (events r) = (if due then 1 else 0)%nat /\
     lastPrintTime (statics (final r)) = (if due then currentTime else last) /\
     (due = true <-> 1000 <= (currentTime - last) mod 2 ^ 32) /\
     countFmt statusFormat (events (checkSensors env st)) = (if due then 1 else 0)%nat) /\
    (0 <= last <= currentTime -> (due = true <-> 1000 <= currentTime - last)) /\
    (last = 0 ->
     usTicker env (tickerPos (board st)) = 0 ->
     usTicker env (1 + tickerPos (board st)) = 400000 ->
     usTicker env (2 + tickerPos (board st)) = 900000 ->
     usTicker env (3 + tickerPos (board st)) = 1050000 ->
     let r0 := checkSensors env st in
     let r1 := checkSensors env (final r0) in
     let r2 := checkSensors env (final r1) in
     let r3 := checkSensors env (final r2) in
     map (fun evs => countFmt statusFormat evs)
         [events r0; events r1; events r2; events r3] = [0; 0; 0; 1]%nat /\
     lastPrintTime (statics (final r3)) = 1050).
Proof.
  intros env g st r currentTime last due.
  assert (Hdue : reportDue env st = due) by reflexivity.
  assert (Hiff : due = true <-> 1000 <= (currentTime - last) mod 2 ^ 32)
    by (unfold due; apply Z.leb_le).
  clearbody due.
  split; [|split].
  - subst r.
    destruct (checkSensors_counts env st) as (_ & _ & _ & _ & Hc).
    cbv zeta in Hc. rewrite Hc.
    rewrite printReadings_run. unfold final, events; cbn [fst snd statics].
    rewrite countFmt_reportLog, countWrites_reportLog, Hdue.
    refine (conj _ (conj _ (conj _ (conj _ (conj _ _))))).
    + reflexivity.
    + reflexivity.
    + reflexivity.
    + now destruct due.
    + exact Hiff.
    + reflexivity.
  - intros Hle. rewrite Hiff.
    pose proof (tickMs_range env st) as Hr. fold currentTime in Hr.
    rewrite Z.mod_small by lia. reflexivity.
  - intros Hlast Ht0 Ht1 Ht2 Ht3 r0 r1 r2 r3. subst r0 r1 r2 r3.
    rewrite !checkSensors_final.
    destruct (checkSensors_counts env st) as (_ & _ & _ & _ & C0).
    destruct (checkSensors_counts env (afterCheck env st)) as (_ & _ & _ & _ & C1).
    destruct (checkSensors_counts env (afterCheck env (afterCheck env st)))
      as (_ & _ & _ & _ & C2).
    destruct (checkSensors_counts env
                (afterCheck env (afterCheck env (afterCheck env st))))
      as (_ & _ & _ & _ & C3).
    cbv zeta in C0, C1, C2, C3. cbn [map]. rewrite C0, C1, C2, C3.
    subst last.
    destruct (reportDue_at env st 0 0 Ht0 Hlast) as (D0 & _).
    change ((1000 <=? (0 mod 2 ^ 32 / 1000 - 0) mod 2 ^ 32)%Z) with false in D0.
    pose proof (afterCheck_lastPrintTime env st) as L1. rewrite D0, Hlast in L1.
    destruct (reportDue_at env (afterCheck env st) 400000 0) as (D1 & _);
      [now rewrite afterCheck_tickerPos | exact L1 |].
    change ((1000 <=? (400000 mod 2 ^ 32 / 1000 - 0) mod 2 ^ 32)%Z) with false in D1.
    pose proof (afterCheck_lastPrintTime env (afterCheck env st)) as L2.
    rewrite D1, L1 in L2.
    destruct (reportDue_at env (afterCheck env (afterCheck env st)) 900000 0)
      as (D2 & _);
      [now rewrite !afterCheck_tickerPos | exact L2 |].
    change ((1000 <=? (900000 mod 2 ^ 32 / 1000 - 0) mod 2 ^ 32)%Z) with false in D2.
    pose proof (afterCheck_lastPrintTime env (afterCheck env (afterCheck env st)))
      as L3.
    rewrite D2, L2 in L3.
    destruct (reportDue_at env (afterCheck env (afterCheck env (afterCheck env st)))
                           1050000 0) as (D3 & T3);
      [now rewrite !afterCheck_tickerPos | exact L3 |].
    change ((1000 <=? (1050000 mod 2 ^ 32 / 1000 - 0) mod 2 ^ 32)%Z) with true in D3.
    change (1050000 mod 2 ^ 32 / 1000) with 1050 in T3.
    rewrite D0, D1, D2, D3. split; [reflexivity|].
    rewrite afterCheck_lastPrintTime, D3. exact T3.
Qed.

Lemma periodic_report_gate_witness :
  (let st := initialState in
   let env := fourTicksEnv (F32.decimal 3 10) in
   let r0 := checkSensors env st in
   let r1 := checkSensors env (final r0) in
   let r2 := checkSensors env (final r1) in
   let r3 := checkSensors env (final r2) in
   map (fun evs => countFmt statusFormat evs)
       [events r0; events r1; events r2; events r3] = [0; 0; 0; 1]%nat /\
   lastPrintTime (statics (final r3)) = 1050) /\
  ((1000 <=? (tickMs (fourTicksEnv F32.zero) initialState
              - lastPrintTime (statics initialState)) mod 2 ^ 32)%Z = true
   <-> 1000 <= tickMs (fourTicksEnv F32.zero) initialState
               - lastPrintTime (statics initialState)).
Proof.
  split.
  - apply (proj2 (proj2 (periodic_report_gate (fourTicksEnv (F32.decimal 3 10))
                                              F32.zero initialState)));
      reflexivity.
  - apply (proj1 (proj2 (periodic_report_gate (fourTicksEnv F32.zero)
                                              F32.zero initialState))).
    now vm_compute.
Defined.

(** C6: the reporter should print its status line if and only if the
    current millisecond tick minus the tick recorded at the last print is at
    least 1000; the code does not keep to it once the ticker has wrapped.
    The millisecond tick is the wrapping microsecond ticker divided by 1000,
    so it falls back to 0 about every 71.6 minutes; whenever it is below the
    recorded tick, the unsigned difference of line 129 is at least 1000 and
    the line is printed, and the tick recorded, although the difference of
    the two ticks is negative: against the comment "Print every 1000 ms" on
    that line. *)
Theorem report_gate_prints_early_after_ticker_wrap :
  forall (env : Env) (st : State),
    0 <= lastPrintTime (statics st) <= 4294967 ->
    tickMs env st < lastPrintTime (statics st) ->
    let r := checkSensors env st in
    tickMs env st - lastPrintTime (statics st) < 1000 /\
    countFmt statusFormat (events r) = 1%nat /\
    lastPrintTime (statics (final r)) = tickMs env st.
Proof.
  intros env st Hlast Hback r. subst r.
  pose proof (tickMs_range env st) as Hcur.
  assert (Hdue : reportDue env st = true).
  { unfold reportDue. apply Z.leb_le.
    rewrite <- (Z.mod_add _ 1 (2 ^ 32)) by lia.
    rewrite Z.mod_small; lia. }
  destruct (checkSensors_counts env st) as (_ & _ & _ & _ & Hc).
  cbv zeta in Hc. rewrite Hc, checkSensors_final, afterCheck_lastPrintTime, Hdue.
  refine (conj _ (conj eq_refl eq_refl)). lia.
Qed.

Lemma report_gate_prints_early_after_ticker_wrap_witness :
  exists (st1 : State) (ev1 : list Event),
    main tickerWrapEnv 1 0 = Some (st1, ev1) /\
    countFmt statusFormat ev1 = 1%nat /\
    lastPrintTime (statics st1) = 4294967 /\
    tickMs tickerWrapEnv st1 = 100 /\
    tickMs tickerWrapEnv st1 - lastPrintTime (statics st1) < 1000 /\
    countFmt statusFormat (events (checkSensors tickerWrapEnv st1)) = 1%nat /\
    lastPrintTime (statics (final (checkSensors tickerWrapEnv st1))) = 100.
Proof.
  destruct (main tickerWrapEnv 1 0) as [[st1 ev1]|] eqn:H;
    [|vm_compute in H; discriminate].
  exists st1, ev1. split; [reflexivity|].
  vm_compute in H. injection H as <- <-.
  split; [now vm_compute|]. split; [now vm_compute|]. split; [now vm_compute|].
  refine (report_gate_prints_early_after_ticker_wrap tickerWrapEnv _ _ _);
    now vm_compute.
Defined.

(** ** Edge-triggered gas notifications *)

Lemma window_split (env : Env) (s : Sensor) (pos n m : nat) :
  window env s pos (n + m)
    = (window env s pos n ++ window env s (pos + n) m)%list.
Proof. unfold window. now rewrite seq_app, map_app. Qed.

Lemma app_same_length_inj {A : Type} (a a' b b' : list A) :
  List.length a = List.length a' ->
  (a ++ b)%list = (a' ++ b')%list -> a = a' /\ b = b'.
Proof.
  revert a'. induction a as [|x a IH]; intros [|x' a'] Hlen H;
    try discriminate.
  - now split.
  - cbn in H. injection H as <- H. injection Hlen as Hlen.
    destruct (IH a' Hlen H) as [<- <-]. now split.
Qed.

Lemma gasNow_of_window (env : Env) (st : State) (l : list float) (b : bool) :
  window env gasSensor (gasPos (board st)) 10 = l ->
  F32.gtb (average10 l) F32.half = b ->
  gasNow env st = b.
Proof. intros <- <-. reflexivity. Qed.

Lemma afterCheck_gasPos (env : Env) (st : State) :
  gasPos (board (afterCheck env st)) = (gasPos (board st) + 10)%nat.
Proof. reflexivity. Qed.

Lemma afterCheck_lastGasDetected (env : Env) (st : State) :
  lastGasDetected (statics (afterCheck env st)) = gasNow env st.
Proof. reflexivity. Qed.

Lemma afterCheck_gasDetected (env : Env) (st : State) :
  gasDetected (globals (afterCheck env st)) = gasNow env st.
Proof. reflexivity. Qed.

Lemma checkGas_step (g : float) (st : State) :
  let r := checkGas g st in
  events r = edgeLog detectedLine noLongerDetectedLine (F32.gtb g F32.half)
                     (lastGasDetected (statics st)) /\
  lastGasDetected (statics (final r)) = F32.gtb g F32.half /\
  gasDetected (globals (final r)) = F32.gtb g F32.half.
Proof. cbv zeta. rewrite checkGas_run. now refine (conj _ (conj _ _)). Qed.

(** C1: with gas readings 0.3, 0.6, 0.6, 0.4 on four successive evaluations
    and [lastGasDetected] false at the start, "Gas detected!" is printed
    once, by evaluation 1, and "Gas no longer detected." once, by
    evaluation 3; an evaluation that leaves the detected state as it was
    prints neither.  Stated for the gas check of lines 98-110 given the four
    readings, and for whole runs of [checkSensors] whose gas input delivers
    each reading ten times. *)
Theorem gas_notifications_fire_once_per_edge :
  forall (env : Env) (st : State),
    lastGasDetected (statics st) = false ->
    window env gasSensor (gasPos (board st)) 40 = gasScenario ->
    (let e0 := checkGas (F32.decimal 3 10) st in
     let e1 := checkGas (F32.decimal 6 10) (final e0) in
     let e2 := checkGas (F32.decimal 6 10) (final e1) in
     let e3 := checkGas (F32.decimal 4 10) (final e2) in
     map (countLit detectedLine) [events e0; events e1; events e2; events e3]
       = [0; 1; 0; 0]%nat /\
     map (countLit noLongerDetectedLine) [events e0; events e1; events e2; events e3]
       = [0; 0; 0; 1]%nat) /\
    let r0 := checkSensors env st in
    let r1 := checkSensors env (final r0) in
    let r2 := checkSensors env (final r1) in
    let r3 := checkSensors env (final r2) in
    map (countLit detectedLine) [events r0; events r1; events r2; events r3]
      = [0; 1; 0; 0]%nat /\
    map (countLit noLongerDetectedLine) [events r0; events r1; events r2; events r3]
      = [0; 0; 0; 1]%nat /\
    map (fun r => gasDetected (globals (final r))) [r0; r1; r2; r3]
      = [false; true; true; false] /\
    (forall (env' : Env) (s : State),
        let r := checkSensors env' s in
        gasDetected (globals (final r)) = lastGasDetected (statics s) ->
        countLit detectedLine (events r) = 0%nat /\
        countLit noLongerDetectedLine (events r) = 0%nat).
Proof.
  intros env st Hlast Hwin. split.
  { intros e0 e1 e2 e3.
    destruct (checkGas_step (F32.decimal 3 10) st) as (V0 & M0 & _).
    destruct (checkGas_step (F32.decimal 6 10) (final e0)) as (V1 & M1 & _).
    destruct (checkGas_step (F32.decimal 6 10) (final e1)) as (V2 & M2 & _).
    destruct (checkGas_step (F32.decimal 4 10) (final e2)) as (V3 & _).
    fold e0 in V0, M0. fold e1 in V1, M1. fold e2 in V2, M2. fold e3 in V3.
    change (F32.gtb (F32.decimal 3 10) F32.half) with false in V0, M0.
    change (F32.gtb (F32.decimal 6 10) F32.half) with true in V1, M1, V2, M2.
    change (F32.gtb (F32.decimal 4 10) F32.half) with false in V3.
    rewrite Hlast in V0. rewrite M0 in V1. rewrite M1 in V2. rewrite M2 in V3.
    cbn [map]. rewrite V0, V1, V2, V3. split; reflexivity. }
  intros r0 r1 r2 r3.
  change 40%nat with (10 + (10 + (10 + 10)))%nat in Hwin.
  rewrite !window_split in Hwin. unfold gasScenario in Hwin.
  apply app_same_length_inj in Hwin as [W0 Hwin];
    [|now rewrite window_length, repeat_length].
  apply app_same_length_inj in Hwin as [W1 Hwin];
    [|now rewrite window_length, repeat_length].
  apply app_same_length_inj in Hwin as [W2 W3];
    [|now rewrite window_length, repeat_length].
  set (s1 := afterCheck env st).
  set (s2 := afterCheck env s1).
  set (s3 := afterCheck env s2).
  assert (G0 : gasNow env st = false)
    by (apply (gasNow_of_window env st _ _ W0); now vm_compute).
  assert (G1 : gasNow env s1 = true).
  { eapply gasNow_of_window; [unfold s1; rewrite afterCheck_gasPos; exact W1|].
    now vm_compute. }
  assert (G2 : gasNow env s2 = true).
  { eapply gasNow_of_window.
    - unfold s2, s1. rewrite !afterCheck_gasPos. exact W2.
    - now vm_compute. }
  assert (G3 : gasNow env s3 = false).
  { eapply gasNow_of_window.
    - unfold s3, s2, s1. rewrite !afterCheck_gasPos. exact W3.
    - now vm_compute. }
  assert (F0 : final r0 = s1) by apply checkSensors_final.
  assert (F1 : final r1 = s2) by (unfold r1; rewrite F0; apply checkSensors_final).
  assert (F2 : final r2 = s3) by (unfold r2; rewrite F1; apply checkSensors_final).
  assert (F3 : final r3 = afterCheck env s3)
    by (unfold r3; rewrite F2; apply checkSensors_final).
  destruct (checkSensors_counts env st) as (D0 & N0 & _).
  destruct (checkSensors_counts env s1) as (D1 & N1 & _).
  destruct (checkSensors_counts env s2) as (D2 & N2 & _).
  destruct (checkSensors_counts env s3) as (D3 & N3 & _).
  cbv zeta in D0, N0, D1, N1, D2, N2, D3, N3.
  assert (L1 : lastGasDetected (statics s1) = gasNow env st)
    by apply afterCheck_lastGasDetected.
  assert (L2 : lastGasDetected (statics s2) = gasNow env s1)
    by apply afterCheck_lastGasDetected.
  assert (L3 : lastGasDetected (statics s3) = gasNow env s2)
    by apply afterCheck_lastGasDetected.
  rewrite G0, Hlast in D0, N0. rewrite L1, G1, G0 in D1, N1.
  rewrite L2, G2, G1 in D2, N2. rewrite L3, G3, G2 in D3, N3.
  cbn [andb negb] in D0, N0, D1, N1, D2, N2, D3, N3.
  assert (E0 : gasDetected (globals s1) = false)
    by (unfold s1; now rewrite afterCheck_gasDetected).
  assert (E1 : gasDetected (globals s2) = true)
    by (unfold s2; now rewrite afterCheck_gasDetected).
  assert (E2 : gasDetected (globals s3) = true)
    by (unfold s3; now rewrite afterCheck_gasDetected).
  assert (E3 : gasDetected (globals (afterCheck env s3)) = false)
    by now rewrite afterCheck_gasDetected.
  clearbody s1 s2 s3.
  refine (conj _ (conj _ (conj _ _))).
  - cbn [map]. unfold r3, r2, r1, r0 in *. rewrite F0, F1, F2 in *.
    now rewrite D0, D1, D2, D3.
  - cbn [map]. unfold r3, r2, r1, r0 in *. rewrite F0, F1, F2 in *.
    now rewrite N0, N1, N2, N3.
  - cbn [map]. now rewrite F0, F1, F2, F3, E0, E1, E2, E3.
  - intros env' s r Heq.
    destruct (checkSensors_counts env' s) as (D & N & _).
    cbv zeta in D, N. fold r in D, N. rewrite D, N.
    unfold r in Heq. rewrite checkSensors_final, afterCheck_gasDetected in Heq.
    rewrite Heq. clear D N Heq.
    destruct (lastGasDetected (statics s)); split; reflexivity.
Qed.

Lemma gas_notifications_fire_once_per_edge_witness :
  let env := gasBurstEnv (quietEnv F32.zero) in
  let r0 := checkSensors env initialState in
  let r1 := checkSensors env (final r0) in
  let r2 := checkSensors env (final r1) in
  let r3 := checkSensors env (final r2) in
  map (countLit detectedLine) [events r0; events r1; events r2; events r3]
    = [0; 1; 0; 0]%nat /\
  map (countLit noLongerDetectedLine) [events r0; events r1; events r2; events r3]
    = [0; 0; 0; 1]%nat.
Proof.
  intros env r0 r1 r2 r3.
  destruct (gas_notifications_fire_once_per_edge env initialState)
    as (_ & Hd & Hn & _); [reflexivity | now vm_compute |].
  split; [exact Hd | exact Hn].
Defined.

(** ** The console session *)

Lemma uartTask_unfold (env : Env) (fuel : nat) (st : State) :
  uartTask env fuel st =
    let receivedChar := charAt env (uartPos (board st)) in
    let st1 := mkState (globals st) (statics st)
                       (set_uartPos (S (uartPos (board st))) (board st)) in
    let ev1 := [EvUartPoll (uartRx env (uartPos (board st)))] in
    if negb (receivedChar =? NUL)%char then
      match commandOf receivedChar with
      | Some cmd =>
          match whileNotQuit fuel (streamBody env cmd) receivedChar st1 with
          | Some (st2, ev2) => Some (st2, (ev1 ++ ev2)%list)
          | None => None
          end
      | None => Some (st1, ev1)
      end
    else Some (st1, ev1).
Proof. reflexivity. Qed.

(** C8: with ['a'] at one poll and ['q'] at the next, [uartTask] returns
    after printing exactly one "Potentiometer reading" line; a turn of that
    loop takes one raw single-shot sample of the potentiometer, and the loop
    stops exactly when the polled byte is ['q'] or ['Q']. *)
Theorem console_a_then_q_streams_once :
  forall (env : Env) (st : State) (fuel : nat),
    uartRx env (uartPos (board st)) = Some "a"%char ->
    uartRx env (S (uartPos (board st))) = Some "q"%char ->
    (2 <= fuel)%nat ->
    let v := analogIn env potentiometer (potPos (board st)) in
    (exists st' : State,
        uartTask env fuel st =
          Some (st',
                [EvUartPoll (Some "a"%char);
                 EvAnalogRead potentiometer v;
                 EvUartWrite (Fmt ("Potentiometer reading: %.2f" ++ crlf) [v]);
                 EvSleep 200;
                 EvUartPoll (Some "q"%char)]) /\
        potentiometerReading (globals st') = v /\
        potPos (board st') = S (potPos (board st)) /\
        uartPos (board st') = S (S (uartPos (board st)))) /\
    (forall st0 : State,
        samplesOf potentiometer (events (streamPotentiometer env st0))
          = [analogIn env potentiometer (potPos (board st0))] /\
        countWrites (events (streamPotentiometer env st0)) = 1%nat /\
        potPos (board (final (streamPotentiometer env st0))) = S (potPos (board st0))) /\
    (forall (n : nat) (c : ascii) (st0 : State),
        whileNotQuit (S n) (streamPotentiometer env) c st0 =
          if isQuit c then Some (st0, [])
          else
            match whileNotQuit n (streamPotentiometer env)
                               (result (streamPotentiometer env st0))
                               (final (streamPotentiometer env st0)) with
            | Some (st2, ev2) =>
                Some (st2, (events (streamPotentiometer env st0) ++ ev2)%list)
            | None => None
            end) /\
    (forall c : ascii, isQuit c = true <-> c = "q"%char \/ c = "Q"%char).
Proof.
  intros env st fuel Ha Hq Hfuel v.
  refine (conj _ (conj _ (conj _ _))).
  - destruct fuel as [|[|n]]; [lia | lia |].
    rewrite uartTask_unfold. unfold charAt. rewrite Ha.
    cbn [charOf]. cbv zeta.
    change (negb ("a" =? NUL)%char) with true. cbv iota.
    change (commandOf "a") with (Some CmdA). cbv iota.
    set (st1 := mkState _ _ _).
    rewrite whileNotQuit_continue by reflexivity.
    destruct (streamBody_run env CmdA st1) as (Hres & Hev & _).
    cbv zeta in Hres, Hev. rewrite Hres, Hev.
    assert (Hpoll : uartRx env (uartPos (board st1)) = Some "q"%char)
      by exact Hq.
    rewrite Hpoll. cbn [charOf].
    rewrite whileNotQuit_stop by reflexivity.
    eexists. split; [reflexivity|]. repeat split.
  - intros st0. repeat split.
  - intros n c st0. destruct (isQuit c) eqn:Hc.
    + now apply whileNotQuit_stop.
    + now apply whileNotQuit_continue.
  - exact isQuit_spec.
Qed.

Lemma console_a_then_q_streams_once_witness :
  exists st' : State,
    uartTask aThenQEnv 2 initialState =
      Some (st',
            [EvUartPoll (Some "a"%char);
             EvAnalogRead potentiometer (F32.decimal 3 4);
             EvUartWrite (Fmt ("Potentiometer reading: %.2f" ++ crlf)
                              [F32.decimal 3 4]);
             EvSleep 200;
             EvUartPoll (Some "q"%char)]) /\
    potentiometerReading (globals st') = F32.decimal 3 4.
Proof.
  destruct (console_a_then_q_streams_once aThenQEnv initialState 2
              eq_refl eq_refl (le_n 2)) as ((st' & Hrun & Hpot & _) & _).
  exists st'. split; [exact Hrun | exact Hpot].
Defined.

Lemma command_bytes_do_not_quit (c : ascii) :
  commandOf c <> None -> isQuit c = false.
Proof.
  intros H. destruct (isQuit c) eqn:Hq; [|reflexivity].
  apply isQuit_spec in Hq as [-> | ->]; exfalso; apply H; reflexivity.
Qed.

Lemma whileNotQuit_same_for_all_bytes (n : nat) (body : M ascii)
      (c c' : ascii) (st : State) :
  isQuit c = false -> isQuit c' = false ->
  whileNotQuit n body c st = whileNotQuit n body c' st.
Proof.
  intros Hc Hc'. destruct n as [|n]; [reflexivity|].
  now rewrite !whileNotQuit_continue.
Qed.

(** C10: inside a streaming loop a polled byte that is neither ['q'] nor
    ['Q'] (NUL for "no data" and the command letters included) only lets the
    loop go round again with the same body: which byte it was makes no
    difference, every line printed until the loop returns has the format of
    the command that started it, and a loop that returns has just polled
    ['q'] or ['Q']; it does return once such a byte arrives. *)
Theorem streaming_ignores_all_but_quit :
  forall (env : Env) (cmd : Command),
    (isQuit NUL = false /\ charOf None = NUL /\
     forall c : ascii, commandOf c <> None -> isQuit c = false) /\
    (forall (n : nat) (c : ascii) (st : State),
        isQuit c = false ->
        whileNotQuit (S n) (streamBody env cmd) c st =
          match whileNotQuit n (streamBody env cmd)
                             (result (streamBody env cmd st))
                             (final (streamBody env cmd st)) with
          | Some (st2, ev2) =>
              Some (st2, (events (streamBody env cmd st) ++ ev2)%list)
          | None => None
          end) /\
    (forall (n : nat) (c c' : ascii) (st : State),
        isQuit c = false -> isQuit c' = false ->
        whileNotQuit n (streamBody env cmd) c st
          = whileNotQuit n (streamBody env cmd) c' st) /\
    (forall (n : nat) (c : ascii) (st st' : State) (evs : list Event),
        isQuit c = false ->
        whileNotQuit n (streamBody env cmd) c st = Some (st', evs) ->
        writesOnly (commandFormat cmd) evs = true /\
        exists (pre : list Event) (q : ascii),
          evs = (pre ++ [EvUartPoll (Some q)])%list /\
          (q = "q"%char \/ q = "Q"%char)) /\
    (forall (fuel : nat) (st st' : State) (evs : list Event),
        commandOf (charAt env (uartPos (board st))) = Some cmd ->
        uartTask env fuel st = Some (st', evs) ->
        writesOnly (commandFormat cmd) evs = true /\
        exists (pre : list Event) (q : ascii),
          evs = (pre ++ [EvUartPoll (Some q)])%list /\
          (q = "q"%char \/ q = "Q"%char)) /\
    (forall (k : nat) (c : ascii) (st : State) (fuel : nat),
        isQuit c = false ->
        (forall i, (i < k)%nat ->
                   isQuit (charAt env (uartPos (board st) + i)) = false) ->
        isQuit (charAt env (uartPos (board st) + k)) = true ->
        (k + 2 <= fuel)%nat ->
        exists (st' : State) (evs : list Event),
          whileNotQuit fuel (streamBody env cmd) c st = Some (st', evs) /\
          countWrites evs = S k /\
          countFmt (commandFormat cmd) evs = S k /\
          uartPos (board st') = (uartPos (board st) + S k)%nat).
Proof.
  intros env cmd.
  refine (conj _ (conj _ (conj _ (conj _ (conj _ _))))).
  - refine (conj eq_refl (conj eq_refl _)). exact command_bytes_do_not_quit.
  - intros n c st Hc. now apply whileNotQuit_continue.
  - intros n c c' st. apply whileNotQuit_same_for_all_bytes.
  - intros n c st st' evs Hc H. split.
    + now apply whileNotQuit_preserves in H.
    + destruct (whileNotQuit_ends_on_quit env cmd n c st st' evs Hc H)
        as (pre & q & Hev & Hq).
      exists pre, q. split; [assumption | now apply isQuit_spec].
  - intros fuel st st' evs Hcmd H. rewrite uartTask_unfold in H. cbv zeta in H.
    rewrite Hcmd in H.
    assert (Hc : isQuit (charAt env (uartPos (board st))) = false)
      by (apply command_bytes_do_not_quit; now rewrite Hcmd).
    destruct (negb _) eqn:Hnul.
    + destruct (whileNotQuit _ _ _ _) as [[st2 ev2]|] eqn:Hloop; [|discriminate].
      injection H as <- <-.
      pose proof (whileNotQuit_preserves env cmd _ _ _ _ _ Hloop) as (_ & _ & Hw).
      destruct (whileNotQuit_ends_on_quit env cmd _ _ _ _ _ Hc Hloop)
        as (pre & q & -> & Hq).
      split.
      * exact Hw.
      * exists (EvUartPoll (uartRx env (uartPos (board st))) :: pre), q.
        split; [reflexivity | now apply isQuit_spec].
    + exfalso. apply negb_false_iff, Ascii.eqb_eq in Hnul.
      rewrite Hnul in Hcmd. discriminate Hcmd.
  - intros k c st fuel. apply whileNotQuit_until_quit.
Qed.

Lemma streaming_ignores_all_but_quit_witness :
  (exists (st' : State) (evs : list Event),
      uartTask sessionEnv 4 initialState = Some (st', evs) /\
      writesOnly (commandFormat CmdA) evs = true /\
      countFmt (commandFormat CmdA) evs = 3%nat) /\
  whileNotQuit 9 (streamBody sessionEnv CmdA) NUL initialState
    = whileNotQuit 9 (streamBody sessionEnv CmdA) "b" initialState /\
  (exists (st' : State) (evs : list Event),
      whileNotQuit 5 (streamBody sessionEnv CmdE) "e" initialState
        = Some (st', evs) /\
      countWrites evs = 4%nat).
Proof.
  destruct (streaming_ignores_all_but_quit sessionEnv CmdA)
    as (_ & _ & Hsame & _ & Htask & _).
  destruct (streaming_ignores_all_but_quit sessionEnv CmdE)
    as (_ & _ & _ & _ & _ & Hrun).
  refine (conj _ (conj _ _)); cycle 2.
  - destruct (Hrun 3%nat "e"%char initialState 5%nat) as (st' & evs & H & Hw & _).
    + reflexivity.
    + intros [|[|[|i]]] Hi; try reflexivity. lia.
    + reflexivity.
    + lia.
    + exists st', evs. split; [exact H | exact Hw].
  - destruct (uartTask sessionEnv 4 initialState) as [[st' evs]|] eqn:H;
      [|vm_compute in H; discriminate].
    exists st', evs. split; [reflexivity|]. split.
    + exact (proj1 (Htask 4%nat initialState st' evs eq_refl H)).
    + vm_compute in H. injection H as _ <-. reflexivity.
  - apply Hsame; reflexivity.
Defined.

(** ** The order of one turn of the main loop *)

Lemma samplingLog_isSampling (s : Sensor) (l : list float) :
  forallb isSamplingEvent (samplingLog s l) = true.
Proof. induction l as [|v l IH]; [reflexivity | exact IH]. Qed.

Lemma samplingPhase_shape (env : Env) (st : State) :
  forallb isSamplingEvent (samplingPhase env st) = true /\
  samplesOf gasSensor (samplingPhase env st) = gasWindow env st /\
  samplesOf lm35 (samplingPhase env st) = lm35Window env st /\
  samplesOf potentiometer (samplingPhase env st) = potWindow env st.
Proof.
  unfold samplingPhase.
  rewrite !forallb_app, !samplingLog_isSampling, !samplesOf_app.
  rewrite !samplesOf_samplingLog_same.
  rewrite !samplesOf_samplingLog_other by discriminate.
  rewrite !app_nil_r. repeat split.
Qed.

Lemma edgeLog_isEvaluation (now last now' last' : bool) :
  forallb isEvaluationEvent
    (edgeLog detectedLine noLongerDetectedLine now last
       ++ edgeLog exceedsLine belowLine now' last') = true.
Proof. destruct now, last, now', last'; reflexivity. Qed.

Lemma alarmLog_isActuation (g t l : bool) :
  forallb isActuationEvent (alarmLog g t l) = true /\ alarmLog g t l <> [].
Proof. destruct g, t; split; try reflexivity; discriminate. Qed.

(** C9: in every turn of the main loop the thirty sample reads come first,
    then the transition lines of the evaluation, then the ticker read and
    the status line if it is due, then the buzzer and LED writes with the
    alarm lines, then the console and the 200 ms sleep; the status line, the
    evaluation and the actuation all use the means of the samples read in
    this same turn. *)
Theorem iteration_samples_evaluates_reports_actuates :
  forall (env : Env) (fuel : nat) (st st' : State) (evs : list Event),
    mainIteration env fuel st = Some (st', evs) ->
    exists sampling evaluation report actuation console : list Event,
      evs = (sampling ++ evaluation ++ report ++ actuation
               ++ console ++ [EvSleep 200])%list /\
      (forallb isSamplingEvent sampling = true /\
       samplesOf gasSensor sampling = window env gasSensor (gasPos (board st)) 10 /\
       samplesOf lm35 sampling = window env lm35 (lm35Pos (board st)) 10 /\
       samplesOf potentiometer sampling
         = window env potentiometer (potPos (board st)) 10) /\
      (let gas := average10 (samplesOf gasSensor sampling) in
       let tempC :=
         analogReadingScaledWithTheLM35Formula (average10 (samplesOf lm35 sampling)) in
       let pot := average10 (samplesOf potentiometer sampling) in
       let gasFlag := F32.gtb gas (F32.decimal 5 10) in
       let tempFlag := F32.gtb tempC (F32.of_int 24) in
       evaluation
         = (edgeLog detectedLine noLongerDetectedLine gasFlag
                    (lastGasDetected (statics st))
              ++ edgeLog exceedsLine belowLine tempFlag
                         (lastTempExceeded (statics st)))%list /\
       (report = [EvTicker (tickUs env st)] \/
        report = [EvTicker (tickUs env st);
                  EvUartWrite (Fmt statusFormat [gas; tempC; pot])]) /\
       actuation = alarmLog gasFlag tempFlag (led (board st)) /\
       alarmState (final (checkSensors env st)) = (gasFlag, tempFlag) /\
       alarmState st' = (gasFlag, tempFlag)) /\
      forallb isEvaluationEvent evaluation = true /\
      forallb isActuationEvent actuation = true /\
      actuation <> [] /\
      uartTask env fuel (final (checkSensors env st)) = Some (st', console).
Proof.
  intros env fuel st st' evs H.
  apply mainIteration_run in H as (console & Hu & ->).
  destruct (samplingPhase_shape env st) as (Hs & Hg & Hl & Hp).
  exists (samplingPhase env st), (evaluationPhase env st), (reportPhase env st),
    (actuationPhase env st), console.
  rewrite Hg, Hl, Hp, checkSensors_final.
  pose proof (uartTask_preserves env fuel _ _ _ Hu) as (Ha & _).
  refine (conj eq_refl (conj _ (conj _ (conj _ (conj _ (conj _ Hu)))))).
  - now refine (conj Hs (conj _ (conj _ _))).
  - cbv zeta. rewrite Ha.
    change (F32.decimal 5 10) with F32.half.
    change (F32.of_int 24) with F32.f24.
    unfold evaluationPhase, actuationPhase, reportPhase, reportLog, alarmState,
      afterCheck, gasNow, tempNow, sampledTempC, sampledGas, sampledLm35,
      sampledPot.
    cbn [globals gasDetected tempExceeded].
    refine (conj eq_refl (conj _ (conj eq_refl (conj eq_refl eq_refl)))).
    destruct (reportDue env st); [right | left]; reflexivity.
  - apply edgeLog_isEvaluation.
  - apply alarmLog_isActuation.
  - apply alarmLog_isActuation.
Qed.

Lemma iteration_samples_evaluates_reports_actuates_witness :
  exists (st' : State) (sampling rest : list Event),
    mainIteration aThenQEnv 5 initialState
      = Some (st', (sampling ++ rest)%list) /\
    forallb isSamplingEvent sampling = true /\
    List.length (samplesOf gasSensor sampling) = 10%nat /\
    alarmState st' = (true, true).
Proof.
  destruct (mainIteration aThenQEnv 5 initialState) as [[st' evs]|] eqn:H;
    [|vm_compute in H; discriminate].
  destruct (iteration_samples_evaluates_reports_actuates
              aThenQEnv 5 initialState st' evs H)
    as (sampling & evaluation & report & actuation & console
        & -> & (Hs & Hg & Hl & _) & (_ & _ & _ & _ & Hst) & _).
  exists st', sampling,
    (evaluation ++ report ++ actuation ++ console ++ [EvSleep 200])%list.
  split; [reflexivity|]. split; [exact Hs|]. split.
  - rewrite Hg. apply window_length.
  - rewrite Hst, Hg, Hl. now vm_compute.
Defined.

(** ** The console outside a streaming loop *)

Lemma uartTask_default (env : Env) (fuel : nat) (st : State) :
  commandOf (charAt env (uartPos (board st))) = None ->
  uartTask env fuel st =
    Some (mkState (globals st) (statics st)
                  (set_uartPos (S (uartPos (board st))) (board st)),
          [EvUartPoll (uartRx env (uartPos (board st)))]).
Proof.
  intros H. rewrite uartTask_unfold. cbv zeta. rewrite H.
  now destruct (negb _).
Qed.

(** X1: when the poll finds nothing, a NUL, or any byte that is not one of
    the twelve command letters (['q'] and ['Q'] included), [uartTask]
    returns at once, needing no fuel: it logs the poll alone and changes
    nothing but the position in the UART input. *)
Theorem uartTask_other_byte_is_noop :
  forall (env : Env) (fuel : nat) (st : State),
    commandOf (charAt env (uartPos (board st))) = None ->
    uartTask env fuel st =
      Some (mkState (globals st) (statics st)
                    (set_uartPos (S (uartPos (board st))) (board st)),
            [EvUartPoll (uartRx env (uartPos (board st)))]).
Proof.
  intros env fuel st H. rewrite uartTask_unfold. cbv zeta. rewrite H.
  now destruct (negb _).
Qed.

Lemma uartTask_other_byte_is_noop_witness :
  uartTask (typedEnv F32.zero [Some "q"%char; None]) 0 initialState
    = Some (mkState (globals initialState) (statics initialState)
                    (set_uartPos 1 (board initialState)),
            [EvUartPoll (Some "q"%char)]) /\
  uartTask (quietEnv F32.zero) 0 initialState
    = Some (mkState (globals initialState) (statics initialState)
                    (set_uartPos 1 (board initialState)),
            [EvUartPoll None]).
Proof.
  split.
  - exact (uartTask_other_byte_is_noop
             (typedEnv F32.zero [Some "q"%char; None]) 0 initialState eq_refl).
  - exact (uartTask_other_byte_is_noop (quietEnv F32.zero) 0 initialState eq_refl).
Defined.

(** X2: the [switch] is case-insensitive and selects nothing else: a byte
    starts the loop of a command exactly when it is that command's letter,
    in lower or in upper case. *)
Theorem commandOf_letters :
  forall (c : ascii) (cmd : Command),
    commandOf c = Some cmd <-> c = lowerOf cmd \/ c = upperOf cmd.
Proof.
  intros c cmd. split.
  - unfold commandOf.
    repeat match goal with
           | |- context [Ascii.eqb c ?x] =>
               destruct (Ascii.eqb_spec c x) as [->|_]
           end;
      cbn [orb]; intros H; try discriminate H;
      injection H as <-; cbn [lowerOf upperOf]; auto.
  - intros [-> | ->]; destruct cmd; reflexivity.
Qed.

(** ** A session that is never told to quit *)

Lemma whileNotQuit_never_returns (env : Env) (cmd : Command) (fuel : nat) :
  forall (c : ascii) (st : State),
    isQuit c = false ->
    (forall i : nat, isQuit (charAt env (uartPos (board st) + i)) = false) ->
    whileNotQuit fuel (streamBody env cmd) c st = None.
Proof.
  induction fuel as [|fuel IH]; intros c st Hc Hall; [reflexivity|].
  rewrite whileNotQuit_continue by assumption.
  destruct (streamBody_run env cmd st) as (Hres & _ & Hpos & _).
  cbv zeta in Hres, Hpos.
  rewrite IH; [reflexivity | |].
  - rewrite Hres. specialize (Hall 0%nat). now rewrite Nat.add_0_r in Hall.
  - intros i. rewrite Hpos. specialize (Hall (S i)).
    now rewrite Nat.add_succ_r in Hall.
Qed.

(** X3: once a command letter has been polled, [uartTask] does not return
    for as long as no later poll finds ['q'] or ['Q']: if none ever does, no
    amount of fuel makes it return, and with it the main loop stops
    checking the sensors. *)
Theorem uartTask_blocks_until_quit :
  forall (env : Env) (cmd : Command) (st : State),
    commandOf (charAt env (uartPos (board st))) = Some cmd ->
    (forall i : nat, isQuit (charAt env (S (uartPos (board st)) + i)) = false) ->
    forall fuel : nat,
      uartTask env fuel st = None /\ mainIteration env fuel st = None.
Proof.
  intros env cmd st Hcmd Hall fuel.
  assert (Hc : isQuit (charAt env (uartPos (board st))) = false)
    by (apply command_bytes_do_not_quit; now rewrite Hcmd).
  assert (Hu : forall st0 : State,
             uartPos (board st0) = uartPos (board st) ->
             uartTask env fuel st0 = None).
  { intros st0 Hpos. rewrite uartTask_unfold. cbv zeta. rewrite Hpos, Hcmd.
    destruct (negb _) eqn:Hnul.
    - rewrite (whileNotQuit_never_returns env cmd fuel); [reflexivity | exact Hc |].
      exact Hall.
    - apply negb_false_iff, Ascii.eqb_eq in Hnul. rewrite Hnul in Hcmd.
      discriminate Hcmd. }
  split; [now apply Hu|].
  unfold mainIteration. rewrite checkSensors_run.
  now rewrite (Hu (afterCheck env st)).
Qed.

Lemma uartTask_blocks_until_quit_witness :
  uartTask neverQuitEnv 1000 initialState = None /\
  mainIteration neverQuitEnv 1000 initialState = None.
Proof.
  apply (uartTask_blocks_until_quit neverQuitEnv CmdA initialState eq_refl).
  intros [|[|i]]; reflexivity.
Defined.

(** ** What a console session leaves alone *)

Lemma streamBody_quiet (env : Env) (cmd : Command) (st : State) :
  let r := streamBody env cmd st in
  forallb isConsoleEvent (events r) = true /\
  buzzerPeriodMs (board (final r)) = buzzerPeriodMs (board st) /\
  buzzerDuty (board (final r)) = buzzerDuty (board st) /\
  led (board (final r)) = led (board st) /\
  gasPos (board (final r)) = gasPos (board st) /\
  tickerPos (board (final r)) = tickerPos (board st).
Proof. destruct cmd; repeat split; reflexivity. Qed.

Lemma whileNotQuit_quiet (env : Env) (cmd : Command) (fuel : nat) :
  forall (c : ascii) (st st' : State) (evs : list Event),
    whileNotQuit fuel (streamBody env cmd) c st = Some (st', evs) ->
    forallb isConsoleEvent evs = true /\
    buzzerPeriodMs (board st') = buzzerPeriodMs (board st) /\
    buzzerDuty (board st') = buzzerDuty (board st) /\
    led (board st') = led (board st) /\
    gasPos (board st') = gasPos (board st) /\
    tickerPos (board st') = tickerPos (board st).
Proof.
  induction fuel as [|fuel IH]; intros c st st' evs H; [discriminate|].
  destruct (isQuit c) eqn:Hc.
  - rewrite whileNotQuit_stop in H by assumption.
    injection H as <- <-. repeat split.
  - rewrite whileNotQuit_continue in H by assumption.
    destruct (whileNotQuit fuel _ _ _) as [[st2 ev2]|] eqn:Hrec; [|discriminate].
    injection H as <- <-.
    apply IH in Hrec as (He & Hp & Hd & Hl & Hg & Ht).
    destruct (streamBody_quiet env cmd st) as (He1 & Hp1 & Hd1 & Hl1 & Hg1 & Ht1).
    cbv zeta in He1, Hp1, Hd1, Hl1, Hg1, Ht1.
    rewrite forallb_app, He1, He.
    repeat split; congruence.
Qed.

Lemma uartTask_quiet :
  forall (env : Env) (fuel : nat) (st st' : State) (evs : list Event),
    uartTask env fuel st = Some (st', evs) ->
    forallb isConsoleEvent evs = true /\
    buzzerPeriodMs (board st') = buzzerPeriodMs (board st) /\
    buzzerDuty (board st') = buzzerDuty (board st) /\
    led (board st') = led (board st) /\
    gasPos (board st') = gasPos (board st) /\
    tickerPos (board st') = tickerPos (board st) /\
    alarmState st' = alarmState st /\
    statics st' = statics st.
Proof.
  intros env fuel st st' evs H.
  destruct (uartTask_preserves env fuel st st' evs H) as (Ha & Hs).
  rewrite uartTask_unfold in H. cbv zeta in H.
  assert (Hnoop : Some (mkState (globals st) (statics st)
                          (set_uartPos (S (uartPos (board st))) (board st)),
                        [EvUartPoll (uartRx env (uartPos (board st)))])
                  = Some (st', evs) ->
                  forallb isConsoleEvent evs = true /\
                  buzzerPeriodMs (board st') = buzzerPeriodMs (board st) /\
                  buzzerDuty (board st') = buzzerDuty (board st) /\
                  led (board st') = led (board st) /\
                  gasPos (board st') = gasPos (board st) /\
                  tickerPos (board st') = tickerPos (board st)).
  { intros E. injection E as <- <-. repeat split. }
  destruct (negb _); [|destruct (Hnoop H) as (? & ? & ? & ? & ? & ?); repeat split; assumption].
  destruct (commandOf _) as [cmd|];
    [|destruct (Hnoop H) as (? & ? & ? & ? & ? & ?); repeat split; assumption].
  destruct (whileNotQuit _ _ _ _) as [[st2 ev2]|] eqn:Hloop; [|discriminate].
  injection H as <- <-.
  apply whileNotQuit_quiet in Hloop as (He & Hp & Hd & Hl & Hg & Ht).
  repeat split; assumption.
Qed.

(** X4: a console session that returns has left the actuators and the
    alarm pipeline alone: the buzzer duty and period, the LED, both alarm
    flags, the edge memory and the reporter's reference tick are as before;
    it has read neither the gas sensor nor the ticker, and its log holds
    only potentiometer and LM35 reads, 200 ms sleeps, polls and formatted
    lines. *)
Theorem uartTask_suspends_alarm_pipeline :
  forall (env : Env) (fuel : nat) (st st' : State) (evs : list Event),
    uartTask env fuel st = Some (st', evs) ->
    forallb isConsoleEvent evs = true /\
    buzzerPeriodMs (board st') = buzzerPeriodMs (board st) /\
    buzzerDuty (board st') = buzzerDuty (board st) /\
    led (board st') = led (board st) /\
    gasPos (board st') = gasPos (board st) /\
    tickerPos (board st') = tickerPos (board st) /\
    alarmState st' = alarmState st /\
    statics st' = statics st.
Proof. exact uartTask_quiet. Qed.

Lemma uartTask_suspends_alarm_pipeline_witness :
  exists (st' : State) (evs : list Event),
    uartTask sessionEnv 4 initialState = Some (st', evs) /\
    forallb isConsoleEvent evs = true /\
    buzzerDuty (board st') = buzzerDuty (board initialState) /\
    led (board st') = led (board initialState).
Proof.
  destruct (uartTask sessionEnv 4 initialState) as [[st' evs]|] eqn:H;
    [|vm_compute in H; discriminate].
  destruct (uartTask_suspends_alarm_pipeline sessionEnv 4 initialState st' evs H)
    as (He & _ & Hd & Hl & _).
  exists st', evs. repeat split; assumption.
Defined.

(** ** What [checkSensors] depends on and what it uses up *)

(** X5: a run of [checkSensors] does not read what the globals held
    before: from two states with the same statics and board it logs the
    same events and ends with the same statics, board, flags, readings and
    temperatures, whatever a console session left in the globals. *)
Theorem checkSensors_ignores_previous_globals :
  forall (env : Env) (st1 st2 : State),
    statics st1 = statics st2 ->
    board st1 = board st2 ->
    let r1 := checkSensors env st1 in
    let r2 := checkSensors env st2 in
    events r1 = events r2 /\
    statics (final r1) = statics (final r2) /\
    board (final r1) = board (final r2) /\
    alarmState (final r1) = alarmState (final r2) /\
    lm35Reading (globals (final r1)) = lm35Reading (globals (final r2)) /\
    lm35TempC (globals (final r1)) = lm35TempC (globals (final r2)) /\
    lm35TempF (globals (final r1)) = lm35TempF (globals (final r2)) /\
    potentiometerReading (globals (final r1))
      = potentiometerReading (globals (final r2)).
Proof.
  intros env [g1 s1 b1] [g2 s2 b2] Hs Hb r1 r2. cbn [statics board] in Hs, Hb.
  subst s2 b2. subst r1 r2. rewrite !checkSensors_run.
  unfold final, events; cbn [fst snd].
  unfold afterCheck, alarmState, samplingPhase, evaluationPhase, reportPhase,
    actuationPhase, reportDue, tickMs, tickUs, gasNow, tempNow, sampledTempC,
    sampledGas, sampledLm35, sampledPot, gasWindow, lm35Window, potWindow.
  cbn [globals statics board lm35Reading lm35TempC lm35TempF
       potentiometerReading gasDetected tempExceeded].
  refine (conj _ (conj _ (conj _ (conj _ (conj _ (conj _ (conj _ _)))))));
    reflexivity.
Qed.

Lemma checkSensors_ignores_previous_globals_witness :
  events (checkSensors (quietEnv (F32.decimal 3 10)) initialState)
    = events (checkSensors (quietEnv (F32.decimal 3 10)) scribbledState) /\
  alarmState (final (checkSensors (quietEnv (F32.decimal 3 10)) initialState))
    = alarmState (final (checkSensors (quietEnv (F32.decimal 3 10)) scribbledState)).
Proof.
  destruct (checkSensors_ignores_previous_globals
              (quietEnv (F32.decimal 3 10)) initialState scribbledState
              eq_refl eq_refl) as (He & _ & _ & Ha & _).
  split; [exact He | exact Ha].
Defined.

Lemma sleepTotal_app (l1 l2 : list Event) :
  sleepTotal (l1 ++ l2) = sleepTotal l1 + sleepTotal l2.
Proof.
  induction l1 as [|e l1 IH]; [reflexivity|].
  cbn [app sleepTotal fold_right]. fold (sleepTotal (l1 ++ l2)).
  fold (sleepTotal l1). rewrite IH. destruct e; lia.
Qed.

Lemma sleepTotal_samplingLog (s : Sensor) (l : list float) :
  sleepTotal (samplingLog s l) = 10 * Z.of_nat (List.length l).
Proof.
  induction l as [|v l IH]; [reflexivity|].
  change (samplingLog s (v :: l))
    with (EvAnalogRead s v :: EvSleep 10 :: samplingLog s l).
  cbn [sleepTotal fold_right]. fold (sleepTotal (samplingLog s l)).
  rewrite IH. cbn [List.length]. lia.
Qed.

Lemma sleepTotal_no_sleep (evs : list Event) :
  forallb (fun e => match e with EvSleep _ => false | _ => true end) evs = true ->
  sleepTotal evs = 0.
Proof.
  induction evs as [|e evs IH]; [reflexivity|].
  cbn [forallb]. rewrite andb_true_iff. intros [He Hr].
  cbn [sleepTotal fold_right]. fold (sleepTotal evs). rewrite (IH Hr).
  destruct e; (discriminate He || reflexivity).
Qed.

Lemma checkSensors_sleepTotal (env : Env) (st : State) :
  sleepTotal (events (checkSensors env st)) = 300.
Proof.
  rewrite checkSensors_run. unfold events; cbn [snd].
  rewrite !sleepTotal_app. unfold samplingPhase.
  rewrite !sleepTotal_app, !sleepTotal_samplingLog.
  unfold gasWindow, lm35Window, potWindow. rewrite !window_length.
  rewrite (sleepTotal_no_sleep (evaluationPhase env st)).
  - rewrite (sleepTotal_no_sleep (reportPhase env st)).
    + rewrite (sleepTotal_no_sleep (actuationPhase env st)); [reflexivity|].
      unfold actuationPhase, alarmLog.
      now destruct (gasNow env st), (tempNow env st).
    + unfold reportPhase, reportLog. now destruct (reportDue env st).
  - unfold evaluationPhase, edgeLog.
    now destruct (gasNow env st), (tempNow env st),
      (lastGasDetected (statics st)), (lastTempExceeded (statics st)).
Qed.

(** X6: every run of [checkSensors] uses up exactly ten samples of each of
    the three analog inputs and one ticker value, never polls the UART,
    leaves the PWM period alone, and spends exactly 300 ms asleep (thirty
    10 ms pauses), whatever the samples are. *)
Theorem checkSensors_consumption :
  forall (env : Env) (st : State),
    let r := checkSensors env st in
    gasPos (board (final r)) = (gasPos (board st) + 10)%nat /\
    lm35Pos (board (final r)) = (lm35Pos (board st) + 10)%nat /\
    potPos (board (final r)) = (potPos (board st) + 10)%nat /\
    tickerPos (board (final r)) = S (tickerPos (board st)) /\
    uartPos (board (final r)) = uartPos (board st) /\
    buzzerPeriodMs (board (final r)) = buzzerPeriodMs (board st) /\
    List.length (samplesOf gasSensor (events r)) = 10%nat /\
    List.length (samplesOf lm35 (events r)) = 10%nat /\
    List.length (samplesOf potentiometer (events r)) = 10%nat /\
    sleepTotal (events r) = 300.
Proof.
  intros env st r. subst r.
  rewrite checkSensors_sleepTotal, checkSensors_final, checkSensors_run.
  unfold events; cbn [snd].
  assert (Hno : forall s : Sensor,
             samplesOf s (evaluationPhase env st ++ reportPhase env st
                            ++ actuationPhase env st) = []).
  { intros s. rewrite !samplesOf_app.
    unfold evaluationPhase, reportPhase, actuationPhase, edgeLog, reportLog,
      alarmLog.
    destruct (gasNow env st), (tempNow env st), (lastGasDetected (statics st)),
      (lastTempExceeded (statics st)), (reportDue env st), s; reflexivity. }
  destruct (samplingPhase_shape env st) as (_ & Hg & Hl & Hp).
  rewrite !(samplesOf_app _ (samplingPhase env st)), !Hno, !app_nil_r, Hg, Hl, Hp.
  unfold gasWindow, lm35Window, potWindow. rewrite !window_length.
  now refine (conj _ (conj _ (conj _ (conj _ (conj _ (conj _ _)))))).
Qed.

(** ** The LED over two runs *)

Lemma afterCheck_led (env : Env) (st : State) :
  led (board (afterCheck env st))
    = if gasDetected (globals (afterCheck env st))
         || tempExceeded (globals (afterCheck env st))
      then negb (led (board st)) else false.
Proof.
  unfold afterCheck. cbn [globals board gasDetected tempExceeded led].
  reflexivity.
Qed.

(** X7: the LED blinks with a period of two runs: when an alarm flag is set
    after each of two successive runs of [checkSensors], the LED is back
    where it started; and a run that ends with no flag set leaves it off
    whatever it was. *)
Theorem led_blinks_every_other_run :
  forall (env : Env) (st : State),
    let s1 := final (checkSensors env st) in
    let s2 := final (checkSensors env s1) in
    (gasDetected (globals s1) || tempExceeded (globals s1) = true ->
     gasDetected (globals s2) || tempExceeded (globals s2) = true ->
     led (board s1) = negb (led (board st)) /\ led (board s2) = led (board st)) /\
    (gasDetected (globals s1) || tempExceeded (globals s1) = false ->
     led (board s1) = false).
Proof.
  intros env st s1 s2. subst s2 s1. rewrite !checkSensors_final.
  rewrite (afterCheck_led env (afterCheck env st)), (afterCheck_led env st).
  split.
  - intros -> ->. split; [reflexivity | apply negb_involutive].
  - intros ->. reflexivity.
Qed.

Lemma led_blinks_every_other_run_witness :
  let env := quietEnv (F32.decimal 3 4) in
  let s1 := final (checkSensors env initialState) in
  let s2 := final (checkSensors env s1) in
  led (board s1) = true /\ led (board s2) = false /\
  led (board (final (checkSensors (quietEnv F32.zero) s1))) = false.
Proof.
  intros env s1 s2.
  destruct (led_blinks_every_other_run env initialState) as (Hon & _).
  destruct (Hon ltac:(now vm_compute) ltac:(now vm_compute)) as (H1 & H2).
  destruct (led_blinks_every_other_run (quietEnv F32.zero) s1) as (_ & Hoff).
  split; [exact H1 | split; [exact H2 | apply Hoff; now vm_compute]].
Defined.

(** ** Spacing of the status lines *)

(** X8: after a run of [checkSensors] that printed the status line, the
    next run prints none if its millisecond tick is still within 1000 of
    the printing one (the ticker not having wrapped in between), and the
    reference tick stays that of the printed line. *)
Theorem status_lines_at_least_a_second_apart :
  forall (env : Env) (st : State),
    let r0 := checkSensors env st in
    let r1 := checkSensors env (final r0) in
    countFmt statusFormat (events r0) = 1%nat ->
    tickMs env st <= tickMs env (final r0) < tickMs env st + 1000 ->
    countFmt statusFormat (events r1) = 0%nat /\
    lastPrintTime (statics (final r1)) = tickMs env st.
Proof.
  intros env st r0 r1 Hprinted Hnear. subst r1.
  destruct (checkSensors_counts env st) as (_ & _ & _ & _ & C0).
  cbv zeta in C0. fold r0 in C0. rewrite C0 in Hprinted.
  assert (D0 : reportDue env st = true)
    by (destruct (reportDue env st); [reflexivity | discriminate Hprinted]).
  assert (F0 : final r0 = afterCheck env st) by apply checkSensors_final.
  rewrite F0 in *. clear C0 Hprinted F0. clearbody r0.
  destruct (checkSensors_counts env (afterCheck env st)) as (_ & _ & _ & _ & C1).
  cbv zeta in C1. rewrite C1, checkSensors_final, afterCheck_lastPrintTime.
  pose proof (afterCheck_lastPrintTime env st) as L. rewrite D0 in L.
  assert (D1 : reportDue env (afterCheck env st) = false).
  { unfold reportDue at 1. rewrite L. apply Z.leb_gt.
    rewrite Z.mod_small; lia. }
  rewrite D1. split; [reflexivity | exact L].
Qed.

Lemma status_lines_at_least_a_second_apart_witness :
  countFmt statusFormat
    (events (checkSensors twoTicksEnv
               (final (checkSensors twoTicksEnv initialState)))) = 0%nat /\
  lastPrintTime
    (statics (final (checkSensors twoTicksEnv
                       (final (checkSensors twoTicksEnv initialState)))))
    = tickMs twoTicksEnv initialState.
Proof.
  apply (status_lines_at_least_a_second_apart twoTicksEnv initialState);
    now vm_compute.
Defined.

(** ** One idle turn of the main loop *)

Lemma mainIteration_idle (env : Env) (fuel : nat) (st : State) :
  commandOf (charAt env (uartPos (board st))) = None ->
  exists (st' : State) (evs : list Event),
    mainIteration env fuel st = Some (st', evs) /\
    sleepTotal evs = 500 /\
    uartPos (board st') = S (uartPos (board st)) /\
    gasPos (board st') = (gasPos (board st) + 10)%nat /\
    tickerPos (board st') = S (tickerPos (board st)) /\
    globals st' = globals (final (checkSensors env st)) /\
    statics st' = statics (final (checkSensors env st)).
Proof.
  intros Hnone.
  pose proof (checkSensors_sleepTotal env st) as Hsleep.
  unfold mainIteration. rewrite checkSensors_run in *.
  unfold events in Hsleep; cbn [snd] in Hsleep.
  rewrite uartTask_default by exact Hnone.
  unfold sleep_for, emit. cbv beta iota.
  eexists _, _. split; [reflexivity|].
  rewrite sleepTotal_app, Hsleep. unfold final; cbn [fst snd].
  now refine (conj _ (conj _ (conj _ (conj _ (conj _ _))))).
Qed.

(** X9: a turn of the main loop that finds no command letter on the UART
    returns without needing fuel, polls the UART once, and spends exactly
    500 ms asleep: 300 ms of sampling pauses and the 200 ms at its end. *)
Theorem idle_turn_takes_half_a_second :
  forall (env : Env) (fuel : nat) (st : State),
    commandOf (charAt env (uartPos (board st))) = None ->
    exists (st' : State) (evs : list Event),
      mainIteration env fuel st = Some (st', evs) /\
      sleepTotal evs = 500 /\
      uartPos (board st') = S (uartPos (board st)) /\
      globals st' = globals (final (checkSensors env st)) /\
      statics st' = statics (final (checkSensors env st)).
Proof.
  intros env fuel st Hnone.
  destruct (mainIteration_idle env fuel st Hnone)
    as (st' & evs & H & Hs & Hu & _ & _ & Hg & Hst).
  exists st', evs. now refine (conj H (conj Hs (conj Hu (conj Hg Hst)))).
Qed.

Lemma idle_turn_takes_half_a_second_witness :
  exists (st' : State) (evs : list Event),
    mainIteration (quietEnv F32.zero) 0 initialState = Some (st', evs) /\
    sleepTotal evs = 500.
Proof.
  destruct (idle_turn_takes_half_a_second (quietEnv F32.zero) 0 initialState
              eq_refl) as (st' & evs & H & Hs & _).
  exists st', evs. split; [exact H | exact Hs].
Defined.

(** ** An invariant of the main loop *)

Lemma loopInvariant_afterCheck (env : Env) (st : State) :
  buzzerPeriodMs (board st) = 2 ->
  0 <= lastPrintTime (statics st) < 2 ^ 32 ->
  loopInvariant (afterCheck env st).
Proof.
  intros Hp Hr. unfold loopInvariant.
  rewrite afterCheck_led, afterCheck_lastPrintTime.
  refine (conj Hp (conj _ (conj _ _))).
  - unfold afterCheck. cbn [globals board gasDetected tempExceeded buzzerDuty].
    reflexivity.
  - intros ->. reflexivity.
  - pose proof (tickMs_range env st). now destruct (reportDue env st).
Qed.

Lemma loopInvariant_uartTask (env : Env) (fuel : nat) (st st' : State)
      (evs : list Event) :
  uartTask env fuel st = Some (st', evs) ->
  loopInvariant st -> loopInvariant st'.
Proof.
  intros H (Ip & Id & Il & Ir).
  apply uartTask_quiet in H as (_ & Hp & Hd & Hl & _ & _ & Ha & Hs).
  unfold alarmState in Ha. injection Ha as Hg Ht.
  unfold loopInvariant. rewrite Hp, Hd, Hl, Hs, Hg, Ht.
  now refine (conj Ip (conj Id (conj Il Ir))).
Qed.

Lemma loopInvariant_mainLoop (env : Env) (fuel n : nat) :
  forall (st st' : State) (evs : list Event),
    loopInvariant st ->
    mainLoop env n fuel st = Some (st', evs) ->
    loopInvariant st'.
Proof.
  induction n as [|n IH]; intros st st' evs Hinv H.
  - injection H as <- <-. assumption.
  - rewrite mainLoop_S in H.
    destruct (mainIteration env fuel st) as [[st1 ev1]|] eqn:Hit; [|discriminate].
    destruct (mainLoop env n fuel st1) as [[st2 ev2]|] eqn:Hrest; [|discriminate].
    injection H as <- <-. apply (IH st1 st2 ev2); [|assumption].
    apply mainIteration_run in Hit as (console & Hu & _).
    apply (loopInvariant_uartTask env fuel _ _ _ Hu).
    destruct Hinv as (Ip & _ & _ & Ir). now apply loopInvariant_afterCheck.
Qed.

Lemma main_unfold (env : Env) (n fuel : nat) :
  main env n fuel =
    match mainLoop env n fuel (final (mainSetup initialState)) with
    | Some (st1, ev1) => Some (st1, (events (mainSetup initialState) ++ ev1)%list)
    | None => None
    end.
Proof. reflexivity. Qed.

Lemma loopInvariant_setup : loopInvariant (final (mainSetup initialState)).
Proof.
  unfold loopInvariant. refine (conj eq_refl (conj eq_refl (conj _ _))).
  - intros _. reflexivity.
  - now vm_compute.
Qed.

(** X10: in every state [main] reaches between two turns of its loop, the
    PWM period is the 2 ms set at startup, the buzzer duty is 0.5 exactly
    when an alarm flag is set and 0.0 otherwise, the LED is off when no flag
    is set, and the reporter's reference tick fits in 32 bits; console
    sessions in between do not disturb any of this. *)
Theorem main_keeps_outputs_in_step_with_flags :
  forall (env : Env) (n fuel : nat) (st : State) (evs : list Event),
    main env n fuel = Some (st, evs) ->
    buzzerPeriodMs (board st) = 2 /\
    buzzerDuty (board st)
      = (if gasDetected (globals st) || tempExceeded (globals st)
         then F32.decimal 5 10 else F32.of_int 0) /\
    (gasDetected (globals st) || tempExceeded (globals st) = false ->
     led (board st) = false) /\
    0 <= lastPrintTime (statics st) < 2 ^ 32.
Proof.
  intros env n fuel st evs H. rewrite main_unfold in H.
  destruct (mainLoop env n fuel _) as [[st1 ev1]|] eqn:Hloop; [|discriminate].
  injection H as <- _.
  exact (loopInvariant_mainLoop env fuel n _ _ _ loopInvariant_setup Hloop).
Qed.

Lemma main_keeps_outputs_in_step_with_flags_witness :
  exists (st : State) (evs : list Event),
    main sessionEnv 3 10 = Some (st, evs) /\
    buzzerPeriodMs (board st) = 2 /\
    buzzerDuty (board st) = F32.decimal 5 10.
Proof.
  destruct (main sessionEnv 3 10) as [[st evs]|] eqn:H;
    [|vm_compute in H; discriminate].
  destruct (main_keeps_outputs_in_step_with_flags sessionEnv 3 10 st evs H)
    as (Hp & Hd & _).
  exists st, evs. split; [reflexivity|]. split; [exact Hp|].
  rewrite Hd. vm_compute in H. injection H as <- _. reflexivity.
Defined.

(** ** The help banner *)

Lemma onlyAlarmLits_app (l1 l2 : list Event) :
  onlyAlarmLits (l1 ++ l2) = onlyAlarmLits l1 && onlyAlarmLits l2.
Proof. apply forallb_app. Qed.

Lemma onlyAlarmLits_samplingLog (s : Sensor) (l : list float) :
  onlyAlarmLits (samplingLog s l) = true.
Proof. induction l as [|v l IH]; [reflexivity | exact IH]. Qed.

Lemma onlyAlarmLits_checkSensors (env : Env) (st : State) :
  onlyAlarmLits
    (samplingPhase env st ++ evaluationPhase env st ++ reportPhase env st
       ++ actuationPhase env st) = true.
Proof.
  unfold samplingPhase. rewrite !onlyAlarmLits_app, !onlyAlarmLits_samplingLog.
  unfold evaluationPhase, reportPhase, actuationPhase, edgeLog, reportLog,
    alarmLog.
  now destruct (gasNow env st), (tempNow env st), (lastGasDetected (statics st)),
    (lastTempExceeded (statics st)), (reportDue env st).
Qed.

Lemma onlyAlarmLits_console (evs : list Event) :
  forallb isConsoleEvent evs = true -> onlyAlarmLits evs = true.
Proof.
  induction evs as [|e evs IH]; [reflexivity|].
  cbn [forallb onlyAlarmLits]. rewrite andb_true_iff. intros [He Hr].
  fold (onlyAlarmLits evs). rewrite (IH Hr), andb_true_r.
  destruct e as [| | | | [s|f a] | | |]; try reflexivity. discriminate He.
Qed.

Lemma onlyAlarmLits_mainLoop (env : Env) (fuel n : nat) :
  forall (st st' : State) (evs : list Event),
    mainLoop env n fuel st = Some (st', evs) -> onlyAlarmLits evs = true.
Proof.
  induction n as [|n IH]; intros st st' evs H.
  - injection H as <- <-. reflexivity.
  - rewrite mainLoop_S in H.
    destruct (mainIteration env fuel st) as [[st1 ev1]|] eqn:Hit; [|discriminate].
    destruct (mainLoop env n fuel st1) as [[st2 ev2]|] eqn:Hrest; [|discriminate].
    injection H as <- <-. rewrite onlyAlarmLits_app, (IH _ _ _ Hrest), andb_true_r.
    apply mainIteration_run in Hit as (console & Hu & ->).
    apply uartTask_quiet in Hu as (Hc & _).
    pose proof (onlyAlarmLits_checkSensors env st) as Hcs.
    rewrite !onlyAlarmLits_app in *.
    rewrite (onlyAlarmLits_console console Hc).
    repeat (apply andb_true_iff in Hcs as [? Hcs]).
    repeat (apply andb_true_iff; split); try assumption; reflexivity.
Qed.

Lemma countLit_not_alarm_line (s : string) (evs : list Event) :
  onlyAlarmLits evs = true -> isAlarmLine s = false -> countLit s evs = 0%nat.
Proof.
  intros Hall Hs. induction evs as [|e evs IH]; [reflexivity|].
  cbn [onlyAlarmLits forallb] in Hall. apply andb_true_iff in Hall as [He Hr].
  specialize (IH Hr). unfold countLit in *. cbn [filter].
  destruct (isWriteOf (Lit s) e) eqn:Hw; [|exact IH].
  exfalso. destruct e as [| | | | [s'|f a] | | |]; try discriminate Hw.
  cbn [isWriteOf] in Hw. apply String.eqb_eq in Hw. subst s'. congruence.
Qed.

(** X11: [main] prints the nine lines of the help banner exactly once each:
    its log starts with the PWM period, the buzzer switched off and the
    banner, and every literal line printed after that is one of the six
    alarm lines of [checkSensors], none of which is a banner line. *)
Theorem banner_printed_once_at_startup :
  forall (env : Env) (n fuel : nat) (st : State) (evs : list Event),
    main env n fuel = Some (st, evs) ->
    exists rest : list Event,
      evs = (EvBuzzerPeriod 2 :: EvBuzzerWrite (F32.of_int 0)
               :: map (fun s => EvUartWrite (Lit s)) bannerLines ++ rest)%list /\
      List.length bannerLines = 9%nat /\
      onlyAlarmLits rest = true /\
      Forall (fun s => countLit s evs = 1%nat) bannerLines.
Proof.
  intros env n fuel st evs H. rewrite main_unfold in H.
  destruct (mainLoop env n fuel _) as [[st1 rest]|] eqn:Hloop; [|discriminate].
  pose proof (onlyAlarmLits_mainLoop env fuel n _ _ _ Hloop) as Hrest.
  clear Hloop. exists rest.
  assert (Hsetup : events (mainSetup initialState)
                   = EvBuzzerPeriod 2 :: EvBuzzerWrite (F32.of_int 0)
                       :: map (fun s => EvUartWrite (Lit s)) bannerLines)
    by now vm_compute.
  assert (Hban : Forall (fun s => countLit s (events (mainSetup initialState)) = 1%nat
                                  /\ isAlarmLine s = false) bannerLines).
  { apply Forall_forall. intros s Hin.
    assert (Hchk : forallb
                     (fun s => Nat.eqb (countLit s (events (mainSetup initialState))) 1
                               && negb (isAlarmLine s)) bannerLines = true)
      by (vm_compute; reflexivity).
    rewrite forallb_forall in Hchk. specialize (Hchk s Hin).
    apply andb_true_iff in Hchk as [H1 H2].
    apply Nat.eqb_eq in H1. apply negb_true_iff in H2. now split. }
  assert (Hevs : evs = (events (mainSetup initialState) ++ rest)%list)
    by congruence.
  clear H. subst evs.
  refine (conj _ (conj eq_refl (conj Hrest _))).
  - now rewrite Hsetup.
  - eapply Forall_impl; [|exact Hban].
    intros s (Hone & Hnot). cbv beta.
    now rewrite countLit_app, Hone, (countLit_not_alarm_line s rest Hrest Hnot).
Qed.

Lemma banner_printed_once_at_startup_witness :
  exists (st : State) (evs : list Event),
    main sessionEnv 2 10 = Some (st, evs) /\
    Forall (fun s => countLit s evs = 1%nat) bannerLines.
Proof.
  destruct (main sessionEnv 2 10) as [[st evs]|] eqn:H;
    [|vm_compute in H; discriminate].
  destruct (banner_printed_once_at_startup sessionEnv 2 10 st evs H)
    as (rest & _ & _ & _ & Hall).
  exists st, evs. split; [reflexivity | exact Hall].
Defined.

(** ** What a console session leaves in the globals *)

Lemma streamBody_lm35 (env : Env) (cmd : Command) (st : State) :
  readsLm35 cmd = true ->
  let r := streamBody env cmd st in
  let w := analogIn env lm35 (lm35Pos (board st)) in
  samplesOf lm35 (events r) = [w] /\
  lm35Reading (globals (final r)) = w /\
  (derivesCelsius cmd = true ->
   lm35TempC (globals (final r)) = analogReadingScaledWithTheLM35Formula w).
Proof.
  destruct cmd; intros Hr; try discriminate Hr;
    refine (conj eq_refl (conj eq_refl _)); intros Hd; try discriminate Hd;
    reflexivity.
Qed.

Lemma whileNotQuit_last_sample (env : Env) (cmd : Command) (fuel : nat) :
  readsLm35 cmd = true ->
  forall (c : ascii) (st st' : State) (evs : list Event),
    isQuit c = false ->
    whileNotQuit fuel (streamBody env cmd) c st = Some (st', evs) ->
    exists (pre : list float) (w : float),
      samplesOf lm35 evs = (pre ++ [w])%list /\
      lm35Reading (globals st') = w /\
      (derivesCelsius cmd = true ->
       lm35TempC (globals st') = analogReadingScaledWithTheLM35Formula w).
Proof.
  intros Hr. induction fuel as [|fuel IH]; intros c st st' evs Hc H;
    [discriminate|].
  rewrite whileNotQuit_continue in H by assumption.
  destruct (whileNotQuit fuel _ _ _) as [[st2 ev2]|] eqn:Hrec; [|discriminate].
  assert (Hst : st2 = st') by congruence.
  assert (Hev : evs = (events (streamBody env cmd st) ++ ev2)%list) by congruence.
  clear H. subst st2 evs.
  destruct (streamBody_lm35 env cmd st Hr) as (Hs1 & Hl1 & Hc1).
  cbv zeta in Hs1, Hl1, Hc1. rewrite samplesOf_app, Hs1.
  destruct (isQuit (result (streamBody env cmd st))) eqn:Hq.
  - destruct fuel as [|fuel]; [discriminate|].
    rewrite whileNotQuit_stop in Hrec by assumption.
    assert (Hst : final (streamBody env cmd st) = st') by congruence.
    assert (Hev : ev2 = []) by congruence.
    clear Hrec. subst st' ev2.
    exists [], (analogIn env lm35 (lm35Pos (board st))).
    now refine (conj _ (conj Hl1 Hc1)).
  - destruct (IH _ _ _ _ Hq Hrec) as (pre & w & -> & Hl & Hcel).
    exists (analogIn env lm35 (lm35Pos (board st)) :: pre), w.
    now refine (conj _ (conj Hl Hcel)).
Qed.

(** X12: after a console session of a command that samples the LM35
    ('b' to 'f'), [lm35Reading] holds the last raw single-shot sample of the
    session, and for 'c' to 'f' [lm35TempC] is 330 times that sample, while
    [tempExceeded] still has the value [checkSensors] gave it: between two
    turns of the main loop the flag need not agree with [lm35TempC]. *)
Theorem session_leaves_last_raw_sample :
  forall (env : Env) (cmd : Command) (fuel : nat) (st st' : State)
         (evs : list Event),
    commandOf (charAt env (uartPos (board st))) = Some cmd ->
    readsLm35 cmd = true ->
    uartTask env fuel st = Some (st', evs) ->
    exists (pre : list float) (w : float),
      samplesOf lm35 evs = (pre ++ [w])%list /\
      lm35Reading (globals st') = w /\
      (derivesCelsius cmd = true ->
       lm35TempC (globals st') = analogReadingScaledWithTheLM35Formula w) /\
      tempExceeded (globals st') = tempExceeded (globals st) /\
      gasDetected (globals st') = gasDetected (globals st).
Proof.
  intros env cmd fuel st st' evs Hcmd Hr H.
  destruct (uartTask_preserves env fuel st st' evs H) as (Ha & _).
  unfold alarmState in Ha. injection Ha as Hg Ht.
  assert (Hc : isQuit (charAt env (uartPos (board st))) = false)
    by (apply command_bytes_do_not_quit; now rewrite Hcmd).
  rewrite uartTask_unfold in H. cbv zeta in H. rewrite Hcmd in H.
  destruct (negb _) eqn:Hnul.
  - destruct (whileNotQuit _ _ _ _) as [[st2 ev2]|] eqn:Hloop; [|discriminate].
    assert (Hst : st2 = st') by congruence.
    assert (Hev : evs = ([EvUartPoll (uartRx env (uartPos (board st)))] ++ ev2)%list)
      by congruence.
    clear H. subst st2 evs.
    destruct (whileNotQuit_last_sample env cmd fuel Hr _ _ _ _ Hc Hloop)
      as (pre & w & Hs & Hl & Hcel).
    exists pre, w. rewrite samplesOf_app, Hs.
    now refine (conj _ (conj Hl (conj Hcel (conj Ht Hg)))).
  - exfalso. apply negb_false_iff, Ascii.eqb_eq in Hnul.
    rewrite Hnul in Hcmd. discriminate Hcmd.
Qed.

Lemma session_leaves_last_raw_sample_witness :
  exists (st' : State) (evs : list Event),
    mainIteration warmUpEnv 3 initialState = Some (st', evs) /\
    lm35Reading (globals st') = F32.decimal 3 4 /\
    lm35TempC (globals st')
      = analogReadingScaledWithTheLM35Formula (F32.decimal 3 4) /\
    F32.gtb (lm35TempC (globals st')) (F32.of_int 24) = true /\
    tempExceeded (globals st') = false.
Proof.
  destruct (mainIteration warmUpEnv 3 initialState) as [[st' evs]|] eqn:H;
    [|vm_compute in H; discriminate].
  exists st', evs. split; [reflexivity|].
  apply mainIteration_run in H as (console & Hu & _).
  destruct (session_leaves_last_raw_sample warmUpEnv CmdC 3
              (afterCheck warmUpEnv initialState) st' console
              eq_refl eq_refl Hu) as (pre & w & Hs & Hl & Hcel & Ht & _).
  assert (Hw : w = F32.decimal 3 4).
  { rewrite <- Hl. vm_compute in Hu. injection Hu as <- _. now vm_compute. }
  rewrite Hw in Hl, Hcel. specialize (Hcel eq_refl).
  refine (conj Hl (conj Hcel (conj _ _))).
  - rewrite Hcel. now vm_compute.
  - rewrite Ht. now vm_compute.
Defined.

(** ** The main loop with an idle console *)

Lemma mainLoop_idle (env : Env) (fuel n : nat) :
  forall st : State,
    (forall i : nat, commandOf (charAt env (uartPos (board st) + i)) = None) ->
    exists (st' : State) (evs : list Event),
      mainLoop env n fuel st = Some (st', evs) /\
      sleepTotal evs = 500 * Z.of_nat n /\
      uartPos (board st') = (uartPos (board st) + n)%nat /\
      gasPos (board st') = (gasPos (board st) + 10 * n)%nat /\
      tickerPos (board st') = (tickerPos (board st) + n)%nat.
Proof.
  induction n as [|n IH]; intros st Hidle.
  - exists st, []. cbn [mainLoop sleepTotal fold_right].
    split; [reflexivity|]. repeat split; lia.
  - rewrite mainLoop_S.
    destruct (mainIteration_idle env fuel st) as (st1 & ev1 & H1 & S1 & U1 & G1 & T1 & _).
    { specialize (Hidle 0%nat). now rewrite Nat.add_0_r in Hidle. }
    rewrite H1.
    destruct (IH st1) as (st2 & ev2 & H2 & S2 & U2 & G2 & T2).
    { intros i. rewrite U1. specialize (Hidle (S i)).
      now rewrite Nat.add_succ_r in Hidle. }
    rewrite H2. exists st2, (ev1 ++ ev2)%list. split; [reflexivity|].
    rewrite sleepTotal_app, S1, S2, U2, G2, T2, U1, G1, T1.
    repeat split; lia.
Qed.

(** X13: while no command letter ever arrives, the main loop never blocks:
    [main] completes any number [n] of turns without fuel, each turn taking
    ten gas samples, one ticker value and one poll, and the [n] turns spend
    500 ms each asleep. *)
Theorem main_runs_freely_without_commands :
  forall (env : Env) (n : nat),
    (forall i : nat, commandOf (charAt env i) = None) ->
    exists (st : State) (evs : list Event),
      main env n 0 = Some (st, evs) /\
      sleepTotal evs = 500 * Z.of_nat n /\
      uartPos (board st) = n /\
      gasPos (board st) = (10 * n)%nat /\
      tickerPos (board st) = n.
Proof.
  intros env n Hidle. rewrite main_unfold.
  destruct (mainLoop_idle env 0 n (final (mainSetup initialState)))
    as (st & evs & H & Hs & Hu & Hg & Ht).
  { intros i. apply Hidle. }
  rewrite H. exists st, (events (mainSetup initialState) ++ evs)%list.
  split; [reflexivity|]. rewrite sleepTotal_app, Hs, Hu, Hg, Ht.
  now refine (conj _ (conj _ (conj _ _))).
Qed.

Lemma main_runs_freely_without_commands_witness :
  exists (st : State) (evs : list Event),
    main (quietEnv (F32.decimal 3 4)) 3 0 = Some (st, evs) /\
    sleepTotal evs = 1500 /\
    gasPos (board st) = 30%nat.
Proof.
  destruct (main_runs_freely_without_commands (quietEnv (F32.decimal 3 4)) 3)
    as (st & evs & H & Hs & _ & Hg & _).
  - intros i. reflexivity.
  - exists st, evs. split; [exact H | split; [exact Hs | exact Hg]].
Defined.
